(** * Three local model servers: chat, embedding and transcription

    A shallow embedding of the request handlers of
    [python-whisper/chat_server.py], [python-whisper/embedding_server.py]
    and [python-whisper/whisper_server.py], and the properties their
    specification states about them.

    Python values that arrive as JSON are kept as a tree ([json]); a
    handler is a computation in a small state-and-exception monad, the
    state being what the handler can touch (files, the log, the external
    calls it has made).  What lives outside the repository (the Whisper
    model, the sentence encoder, numpy, the HTTP client, the Ollama
    runtime) is a field of an environment record. *)

From Stdlib Require Import Reals Lra.
From Stdlib Require Import PrimFloat SpecFloat FloatOps ZArith.
From stdpp Require Import gmap strings list pretty.

Set Warnings "-register-all".
Set Default Proof Using "Type".

Open Scope string_scope.

(* ===================================================================== *)
(** * Part I: the Python layer                                            *)
(* ===================================================================== *)

Module Py.

(** An exception is carried by its message, the [str(e)] the handlers put
    into their error bodies. *)
Definition exn := string.

Inductive result (A : Type) : Type :=
| Ok (a : A)
| Raise (e : exn).
Arguments Ok {A} a.
Arguments Raise {A} e.

(** A computation over a state [S] that returns or raises. *)
Definition M (S A : Type) : Type := S -> result A * S.

Definition ret {S A} (a : A) : M S A := fun s => (Ok a, s).
Definition raise {S A} (e : exn) : M S A := fun s => (Raise e, s).
Definition bind {S A B} (m : M S A) (k : A -> M S B) : M S B :=
  fun s => match m s with
           | (Ok a, s') => k a s'
           | (Raise e, s') => (Raise e, s')
           end.
Definition get {S} : M S S := fun s => (Ok s, s).
Definition modify {S} (f : S -> S) : M S unit := fun s => (Ok tt, f s).
Definition lift_result {S A} (r : result A) : M S A := fun s => (r, s).

(** [try: body except Exception as e: handler e]. *)
Definition try_except {S A} (body : M S A) (handler : exn -> M S A) : M S A :=
  fun s => match body s with
           | (Ok a, s') => (Ok a, s')
           | (Raise e, s') => handler e s'
           end.

(** Running a computation of a smaller state inside a larger one. *)
Definition zoom {S T A} (proj : T -> S) (upd : S -> T -> T) (m : M S A) : M T A :=
  fun t => match m (proj t) with (r, s') => (r, upd s' t) end.

(** The notations [x ← m; k] and [m ;; k] are stdpp's. *)
#[global] Instance M_ret {S} : MRet (M S) := fun A a => ret a.
#[global] Instance M_bind {S} : MBind (M S) := fun A B k m => bind m k.

#[global] Instance result_ret : MRet result := fun A a => Ok a.
#[global] Instance result_bind : MBind result := fun A B k r =>
  match r with Ok a => k a | Raise e => Raise e end.

(** ** JSON values as Python objects *)

Inductive json : Type :=
| JNull
| JBool (b : bool)
| JInt (z : Z)
| JFloat (f : float)
| JStr (s : string)
| JArr (l : list json)
| JObj (kv : list (string * json)).

(** Python truthiness: [None], [False], zero, the empty string, list and
    dict are false. *)
Definition truthy (j : json) : bool :=
  match j with
  | JNull => false
  | JBool b => b
  | JInt z => negb (z =? 0)%Z
  | JFloat f => negb (PrimFloat.eqb f 0%float)
  | JStr s => negb (String.eqb s "")
  | JArr l => match l with [] => false | _ => true end
  | JObj kv => match kv with [] => false | _ => true end
  end.

Definition is_str (s : string) (j : json) : bool :=
  match j with JStr t => String.eqb t s | _ => false end.

(** A dict is an association list with distinct keys; lookup takes the
    first binding. *)
Fixpoint assoc (k : string) (kv : list (string * json)) : option json :=
  match kv with
  | [] => None
  | (k', v) :: kv' => if String.eqb k' k then Some v else assoc k kv'
  end.

Definition is_substring (k s : string) : bool :=
  match String.index 0 k s with Some _ => true | None => false end.

Definition type_name (j : json) : string :=
  match j with
  | JNull => "NoneType" | JBool _ => "bool" | JInt _ => "int"
  | JFloat _ => "float" | JStr _ => "str" | JArr _ => "list"
  | JObj _ => "dict"
  end.

(** [k in j]: key of a dict, element of a list, substring of a string;
    a [TypeError] on anything else. *)
Definition py_in (k : string) (j : json) : result bool :=
  match j with
  | JObj kv => Ok (match assoc k kv with Some _ => true | None => false end)
  | JArr l => Ok (existsb (is_str k) l)
  | JStr s => Ok (is_substring k s)
  | _ => Raise ("argument of type '" +:+ type_name j +:+ "' is not iterable")
  end.

(** [j[k]] for a string [k]. *)
Definition py_getitem (j : json) (k : string) : result json :=
  match j with
  | JObj kv => match assoc k kv with
               | Some v => Ok v
               | None => Raise ("'" +:+ k +:+ "'")
               end
  | JArr _ => Raise "list indices must be integers or slices, not str"
  | JStr _ => Raise "string indices must be integers, not 'str'"
  | _ => Raise ("'" +:+ type_name j +:+ "' object is not subscriptable")
  end.

Definition attribute_error (j : json) (attr : string) : exn :=
  "'" +:+ type_name j +:+ "' object has no attribute '" +:+ attr +:+ "'".

(** [j.get(k, d)]: only a dict has it. *)
Definition py_get (j : json) (k : string) (d : json) : result json :=
  match j with
  | JObj kv => Ok (default d (assoc k kv))
  | _ => Raise (attribute_error j "get")
  end.

Definition chars_of (s : string) : list json :=
  (fun c => JStr (String c "")) <$> String.list_ascii_of_string s.

(** What a [for] loop over [j] visits. *)
Definition py_iter (j : json) : result (list json) :=
  match j with
  | JArr l => Ok l
  | JObj kv => Ok ((fun p => JStr p.1) <$> kv)
  | JStr s => Ok (chars_of s)
  | _ => Raise ("'" +:+ type_name j +:+ "' object is not iterable")
  end.

(** ** Strings

    A character is a code point below 256.  [str.strip] and [str.split]
    use the whitespace of [str.isspace]: tab to carriage return, the four
    separators 28..31, space, NEL (133) and the no-break space (160). *)
Definition is_space (c : Ascii.ascii) : bool :=
  let n := Ascii.N_of_ascii c in
  ((9 <=? n) && (n <=? 13) || (28 <=? n) && (n <=? 32)
   || (n =? 133) || (n =? 160))%N.

Fixpoint lstrip (s : string) : string :=
  match s with
  | EmptyString => EmptyString
  | String c s' => if is_space c then lstrip s' else s
  end.

Fixpoint rstrip (s : string) : string :=
  match s with
  | EmptyString => EmptyString
  | String c s' =>
      match rstrip s' with
      | EmptyString => if is_space c then EmptyString else String c EmptyString
      | r => String c r
      end
  end.

(** [s.strip()] *)
Definition strip (s : string) : string := rstrip (lstrip s).

(** [s.split()] without arguments: the maximal runs of non-whitespace.
    [split_run s] is the run [s] starts with and the runs after it. *)
Fixpoint split_run (s : string) : string * list string :=
  match s with
  | EmptyString => (EmptyString, [])
  | String c s' =>
      let '(w, ws) := split_run s' in
      if is_space c
      then (EmptyString, match w with EmptyString => ws | _ => w :: ws end)
      else (String c w, ws)
  end.

Definition split (s : string) : list string :=
  let '(w, ws) := split_run s in
  match w with EmptyString => ws | _ => w :: ws end.

(** The line feed of a [\n] escape. *)
Definition nl : string := String (Ascii.ascii_of_nat 10) EmptyString.

(** [str(j)] as an f-string renders it.  A string renders as itself; the
    rendering of the other values (number formatting, [repr] of nested
    strings) is the interpreter's and is taken as given. *)
Definition py_str (str_other : json -> string) (j : json) : string :=
  match j with
  | JStr s => s
  | _ => str_other j
  end.

(** [j.strip()] and [j.split()] on a value that need not be a string. *)
Definition py_strip (j : json) : result string :=
  match j with
  | JStr s => Ok (strip s)
  | _ => Raise (attribute_error j "strip")
  end.

Definition py_split (j : json) : result (list string) :=
  match j with
  | JStr s => Ok (split s)
  | _ => Raise (attribute_error j "split")
  end.

(** A Flask response: the JSON body and the status code.  A handler whose
    own [except] block raises hands the exception to the framework. *)
Inductive outcome : Type :=
| Response (body : json) (status : Z)
| Unhandled (e : exn).

(** The part of a Flask request the handlers read: the multipart files,
    whether the content type is JSON, and what parsing the body gives.
    Reading [request.files] parses the form and raises on a body over the
    parser's limits ([RequestEntityTooLarge]); [request.json] and
    [request.get_json()] raise on a body that does not parse. *)
Record request (upload : Type) : Type := {
  files : result (gmap string upload);
  is_json : bool;
  get_json : result json;
}.
Arguments files {upload} _.
Arguments is_json {upload} _.
Arguments get_json {upload} _.

End Py.

(* ===================================================================== *)
(** * Part II: the transcription server ([whisper_server.py])             *)
(* ===================================================================== *)

Module Whisper.
Import Py.

(** A temporary file is named by a number [k], standing for
    [/tmp/tmp<k>.mp3]; such a name is a non-empty string, hence truthy. *)
Abbreviation path := N.
Definition path_name (p : path) : string := "/tmp/tmp" +:+ pretty p +:+ ".mp3".
Abbreviation bytes := string.

(** What a request does to the outside, in the order it does it.  A log
    record keeps the pieces of its f-string. *)
Inductive event : Type :=
| LogInfo (parts : list json)
| LogError (parts : list json)
| HttpGet (url : json)
| TempCreate (p : path)
| FileWrite (p : path) (chunk : bytes)
| FileSave (p : path)
| PathExists (p : path)
| Unlink (p : path)
| ModelTranscribe (p : path).

Record world : Type := {
  fs : gmap path bytes;
  trace : list event;
}.

(** The entries of Whisper's result dict that the server reads. *)
Record segment : Type := {
  seg_text : string;
  seg_start : float;
  seg_end : float;
}.

Record whisper_result : Type := {
  r_text : string;
  r_segments : option (list segment);
  r_language : option string;
}.

(** The answer of [requests.get(url, stream=True)]: the status line and
    the body as [iter_content] delivers it, possibly cut by an error. *)
Record http_response : Type := {
  status_code : Z;
  reason : string;
  final_url : string;
  chunks : list bytes;
  stream_error : option exn;
}.

Record upload : Type := {
  up_content : bytes;
  up_save_error : option exn;
}.

Record env : Type := {
  (** the global [whisper_model]; [transcribe] is given the file's bytes *)
  whisper_model : option (option bytes -> result whisper_result);
  requests_get : json -> result http_response;
  (** the paths on which [os.unlink] raises, with the error *)
  unlink_error : path -> option exn;
}.

Definition emit (e : event) : M world unit :=
  modify (fun w => {| fs := fs w; trace := trace w ++ [e] |}).
Definition set_fs (f : gmap path bytes -> gmap path bytes) : M world unit :=
  modify (fun w => {| fs := f (fs w); trace := trace w |}).

(** [tempfile.NamedTemporaryFile(delete=False, suffix='.mp3')]: a new,
    empty file under a name not in use. *)
Definition named_temporary_file : M world path :=
  w ← get;
  let p := fresh (dom (fs w)) in
  emit (TempCreate p);;
  set_fs (insert p "");;
  mret p.

Definition file_write (p : path) (chunk : bytes) : M world unit :=
  emit (FileWrite p chunk);;
  set_fs (fun m => <[p := default "" (m !! p) +:+ chunk]> m).

(** [response.raise_for_status()]: an [HTTPError] for 4xx and 5xx. *)
Definition raise_for_status (r : http_response) : result unit :=
  if ((400 <=? status_code r) && (status_code r <? 500))%Z then
    Raise (pretty (status_code r) +:+ " Client Error: " +:+ reason r
           +:+ " for url: " +:+ final_url r)
  else if ((500 <=? status_code r) && (status_code r <? 600))%Z then
    Raise (pretty (status_code r) +:+ " Server Error: " +:+ reason r
           +:+ " for url: " +:+ final_url r)
  else Ok tt.

Fixpoint write_chunks (p : path) (cs : list bytes) : M world unit :=
  match cs with
  | [] => mret tt
  | c :: cs' => file_write p c;; write_chunks p cs'
  end.

Definition download_audio_file (E : env) (url : json) : M world path :=
  try_except
    (emit (LogInfo [JStr "Downloading audio from: "; url]);;
     emit (HttpGet url);;
     response ← lift_result (requests_get E url);
     lift_result (raise_for_status response);;
     temp_path ←
       (temp_file ← named_temporary_file;
        write_chunks temp_file (chunks response);;
        match stream_error response with
        | Some e => raise e
        | None => mret temp_file
        end);
     emit (LogInfo [JStr "Audio downloaded to: "; JStr (path_name temp_path)]);;
     mret temp_path)
    (fun e =>
       emit (LogError [JStr "Failed to download audio: "; JStr e]);;
       raise e).

Definition format_segment (s : segment) : json :=
  JObj [("text", JStr (strip (seg_text s)));
        ("start", JFloat (seg_start s));
        ("end", JFloat (seg_end s))].

(** The loop over [result['segments']], or the fallback. *)
Definition format_segments (r : whisper_result) : list json :=
  match r_segments r with
  | Some segs => format_segment <$> segs
  | None => [JObj [("text", JStr (strip (r_text r)));
                   ("start", JFloat 0%float);
                   ("end", JFloat 0%float)]]
  end.

Definition transcribe_audio_file (E : env) (file_path : path) : M world json :=
  try_except
    (emit (LogInfo [JStr "Transcribing audio file: "; JStr (path_name file_path)]);;
     emit (ModelTranscribe file_path);;
     w ← get;
     result ←
       match whisper_model E with
       | Some model => lift_result (model (fs w !! file_path))
       | None => raise "'NoneType' object has no attribute 'transcribe'"
       end;
     let segments := format_segments result in
     emit (LogInfo [JStr "Transcription completed. Found ";
                    JInt (Z.of_nat (length segments)); JStr " segments"]);;
     mret (JObj [("text", JStr (r_text result));
                 ("language", JStr (default "unknown" (r_language result)));
                 ("segments", JArr segments)]))
    (fun e =>
       emit (LogError [JStr "Transcription failed: "; JStr e]);;
       raise e).

(** The handler's frame: the outside world and its local variable. *)
Record frame : Type := {
  fw : world;
  temp_file_path : option path;
}.

Definition in_world {A} (m : M world A) : M frame A :=
  zoom fw (fun w' fr => {| fw := w'; temp_file_path := temp_file_path fr |}) m.
Definition assign_temp_file_path (v : option path) : M frame unit :=
  modify (fun fr => {| fw := fw fr; temp_file_path := v |}).

Definition os_unlink (E : env) (p : path) : M world unit :=
  emit (Unlink p);;
  match unlink_error E p with
  | Some e => raise e
  | None => set_fs (delete p)
  end.

(** [if temp_file_path and os.path.exists(temp_file_path):
       os.unlink(temp_file_path)] *)
Definition cleanup (E : env) : M frame unit :=
  fr ← get;
  match temp_file_path fr with
  | None => mret tt
  | Some p =>
      in_world (emit (PathExists p));;
      if decide (p ∈ dom (fs (fw fr)))
      then in_world (os_unlink E p)
      else mret tt
  end.

(** [uploaded_file.save(temp_file.name)] *)
Definition upload_save (u : upload) (p : path) : M world unit :=
  emit (FileSave p);;
  match up_save_error u with
  | Some e => raise e
  | None => set_fs (insert p (up_content u))
  end.

Definition error_body (msg : string) : json := JObj [("error", JStr msg)].

(** The second test of the [elif]: [request.is_json and request.json and
    'audio_url' in request.json]. *)
Definition has_audio_url (req : request upload) : result bool :=
  if is_json req then
    match get_json req with
    | Raise e => Raise e
    | Ok j => if truthy j then py_in "audio_url" j else Ok false
    end
  else Ok false.

(** Lines 124 to 139, the [if]/[elif]/[else] that obtains the audio:
    [true] when a temporary file was made and [temp_file_path] set,
    [false] when the [else] branch is taken.  The first test reads
    [request.files], which may raise. *)
Definition acquire_audio (E : env) (req : request upload) : M frame bool :=
  form ← lift_result (files req);
  match form !! "audio_file" with
  | Some uploaded_file =>
      temp_file ← in_world named_temporary_file;
      in_world (upload_save uploaded_file temp_file);;
      assign_temp_file_path (Some temp_file);;
      mret true
  | None =>
      given ← lift_result (has_audio_url req);
      if given : bool then
        body ← lift_result (get_json req);
        audio_url ← lift_result (py_getitem body "audio_url");
        p ← in_world (download_audio_file E audio_url);
        assign_temp_file_path (Some p);;
        mret true
      else mret false
  end.

(** Lines 141 to 154.  Both branches that lead here have set
    [temp_file_path]; the [None] case is kept for the match only. *)
Definition transcribe_rest (E : env) : M frame (json * Z) :=
  match whisper_model E with
  | None => mret (error_body "Whisper model not loaded", 500%Z)
  | Some _ =>
      fr ← get;
      result ←
        match temp_file_path fr with
        | Some p => in_world (transcribe_audio_file E p)
        | None => raise "expected str, bytes or os.PathLike object, not NoneType"
        end;
      cleanup E;;
      mret (JObj [("success", JBool true); ("result", result)], 200%Z)
  end.

Definition transcribe_try (E : env) (req : request upload) : M frame (json * Z) :=
  assign_temp_file_path None;;
  proceed ← acquire_audio E req;
  if proceed : bool then transcribe_rest E
  else mret (error_body "No audio_url or audio_file provided", 400%Z).

Definition transcribe_except (E : env) (e : exn) : M frame (json * Z) :=
  cleanup E;;
  in_world (emit (LogError [JStr "Transcription request failed: "; JStr e]));;
  mret (JObj [("success", JBool false); ("error", JStr e)], 500%Z).

(** [POST /transcribe] *)
Definition transcribe (E : env) (req : request upload) (w0 : world)
  : outcome * world :=
  match try_except (transcribe_try E req) (transcribe_except E)
          {| fw := w0; temp_file_path := None |} with
  | (Ok (body, status), fr) => (Response body status, fw fr)
  | (Raise e, fr) => (Unhandled e, fw fr)
  end.

End Whisper.

(* ===================================================================== *)
(** * Part III: the chat server ([chat_server.py])                        *)
(* ===================================================================== *)

Module Chat.
Import Py.

(** An answer of the Ollama runtime: [status_code], [text] and what
    [response.json()] gives. *)
Record http_reply : Type := {
  status_code : Z;
  text : string;
  json_body : result json;
}.

Inductive event : Type :=
| LogInfo (parts : list json)
| LogError (parts : list json)
| GetTags
| PostGenerate (payload : json).

Definition world := list event.

Record env : Type := {
  OLLAMA_MODEL : string;
  (** [requests.get(OLLAMA_URL/api/tags, timeout=5)]: the status code *)
  get_tags : result Z;
  (** [requests.post(OLLAMA_URL/api/generate, json=payload, timeout=120)] *)
  post_generate : json -> result http_reply;
  (** [str] of a value that is not a string *)
  str_other : json -> string;
}.

Definition emit (e : event) : M world unit := modify (fun t => (t ++ [e])%list).

(** The bare [except:] turns every failure of the probe into [False]. *)
Definition check_ollama_running (E : env) : M world bool :=
  emit GetTags;;
  mret (match get_tags E with
        | Ok code => (code =? 200)%Z
        | Raise _ => false
        end).

(** One turn of the loop [for message in messages], on the prompt so far. *)
Definition add_message (E : env) (prompt : string) (message : json)
  : result string :=
  role ← py_get message "role" (JStr "user");
  content ← py_get message "content" (JStr "");
  if is_str "system" role then
    mret (prompt +:+ ("System: " +:+ py_str (str_other E) content +:+ nl))
  else if is_str "user" role then
    mret (prompt +:+ ("Human: " +:+ py_str (str_other E) content +:+ nl))
  else if is_str "assistant" role then
    mret (prompt +:+ ("Assistant: " +:+ py_str (str_other E) content +:+ nl))
  else mret prompt.

Fixpoint add_messages (E : env) (prompt : string) (messages : list json)
  : result string :=
  match messages with
  | [] => mret prompt
  | message :: rest =>
      prompt' ← add_message E prompt message;
      add_messages E prompt' rest
  end.

(** The conversion of [messages] to the prompt, lines 114 to 126. *)
Definition build_prompt (E : env) (messages : json) : result string :=
  items ← py_iter messages;
  prompt ← add_messages E "" items;
  mret (prompt +:+ "Assistant: ").

Definition error_body (msg : string) : json := JObj [("error", JStr msg)].

Definition word_count (j : json) : result Z :=
  ws ← py_split j; mret (Z.of_nat (length ws)).

Definition completion_body (E : env) (prompt : string) (generated_text : json)
  : result json :=
  prompt_tokens ← word_count (JStr prompt);
  completion_tokens ← word_count generated_text;
  prompt_tokens' ← word_count (JStr prompt);
  completion_tokens' ← word_count generated_text;
  mret (JObj [
    ("choices", JArr [JObj [
        ("message", JObj [("role", JStr "assistant");
                          ("content", generated_text)]);
        ("finish_reason", JStr "stop")]]);
    ("model", JStr (OLLAMA_MODEL E));
    ("usage", JObj [
        ("prompt_tokens", JInt prompt_tokens);
        ("completion_tokens", JInt completion_tokens);
        ("total_tokens", JInt (prompt_tokens' + completion_tokens'))])]).

(** The dict [ollama_request] of lines 131 to 139. *)
Definition generate_payload (E : env) (data : json) (prompt : string)
  : result json :=
  temperature ← py_get data "temperature" (JFloat 0x1.3333333333333p-2%float);
  max_tokens ← py_get data "max_tokens" (JInt 500);
  mret (JObj [("model", JStr (OLLAMA_MODEL E));
              ("prompt", JStr prompt);
              ("stream", JBool false);
              ("options", JObj [("temperature", temperature);
                                ("max_tokens", max_tokens)])]).

Definition chat_completions_try {U} (E : env) (req : request U)
  : M world (json * Z) :=
  running ← check_ollama_running E;
  if negb running then
    mret (error_body "Ollama is not running. Please start Ollama first.", 500%Z)
  else
    data ← lift_result (get_json req);
    if negb (truthy data) then mret (error_body "No data provided", 400%Z)
    else
      messages ← lift_result (py_get data "messages" (JArr []));
      if negb (truthy messages) then
        mret (error_body "No messages provided", 400%Z)
      else
        prompt ← lift_result (build_prompt E messages);
        emit (LogInfo [JStr "Generating response for prompt of length ";
                       JInt (Z.of_nat (String.length prompt))]);;
        ollama_request ← lift_result (generate_payload E data prompt);
        emit (PostGenerate ollama_request);;
        response ← lift_result (post_generate E ollama_request);
        if negb (status_code response =? 200)%Z then
          mret (error_body ("Ollama API error: " +:+ text response), 500%Z)
        else
          ollama_response ← lift_result (json_body response);
          generated_text ← lift_result (py_get ollama_response "response" (JStr ""));
          body ← lift_result (completion_body E prompt generated_text);
          mret (body, 200%Z).

Definition chat_completions_except (e : exn) : M world (json * Z) :=
  emit (LogError [JStr "Chat completion failed: "; JStr e]);;
  mret (error_body e, 500%Z).

(** [POST /chat/completions] *)
Definition chat_completions {U} (E : env) (req : request U) (w0 : world)
  : outcome * world :=
  match try_except (chat_completions_try E req) chat_completions_except w0 with
  | (Ok (body, status), w) => (Response body status, w)
  | (Raise e, w) => (Unhandled e, w)
  end.

End Chat.

(* ===================================================================== *)
(** * Part IV: the embedding server ([embedding_server.py])               *)
(* ===================================================================== *)

Module Embedding.
Import Py.

(** A row of the encoder's array, after [tolist()]. *)
Definition vector := list float.

(** The numpy operations of the similarity formula, on float32 data. *)
Record numpy : Type := {
  np_dot : vector -> vector -> float;
  np_linalg_norm : vector -> float;
  np_multiply : float -> float -> float;
  np_true_divide : float -> float -> float;
}.

Inductive event : Type :=
| LogInfo (parts : list json)
| LogError (parts : list json)
| Encode (sentences : list string).

Definition world := list event.

Record env : Type := {
  MODEL_NAME : string;
  (** the global [embedding_model], as its [encode] on a list of texts *)
  embedding_model : option (list string -> result (list vector));
  np : numpy;
}.

Definition emit (e : event) : M world unit := modify (fun t => (t ++ [e])%list).

Definition error_body (msg : string) : json := JObj [("error", JStr msg)].

Definition failure_body (e : exn) : json :=
  JObj [("success", JBool false); ("error", JStr e)].

(** [[text for text in texts if text and text.strip()]] *)
Fixpoint valid_texts (texts : list json) : result (list string) :=
  match texts with
  | [] => mret []
  | text :: rest =>
      keep ← (if truthy text
              then s ← py_strip text; mret (negb (String.eqb s ""))
              else mret false);
      tail ← valid_texts rest;
      mret (if keep : bool
            then match text with JStr s => s :: tail | _ => tail end
            else tail)
  end.

Definition json_of_vector (v : vector) : json := JArr (JFloat <$> v).

(** [not data or key not in data] *)
Definition lacks (data : json) (key : string) : result bool :=
  if negb (truthy data) then mret true
  else present ← py_in key data; mret (negb present).

Definition encode (E : env) (sentences : list string) : M world (list vector) :=
  emit (Encode sentences);;
  match embedding_model E with
  | Some enc => lift_result (enc sentences)
  | None => raise "'NoneType' object has no attribute 'encode'"
  end.

Definition create_batch_embeddings_try {U} (E : env) (req : request U)
  : M world (json * Z) :=
  match embedding_model E with
  | None => mret (error_body "Embedding model not loaded", 500%Z)
  | Some _ =>
      data ← lift_result (get_json req);
      missing ← lift_result (lacks data "texts");
      if missing : bool then mret (error_body "No texts provided", 400%Z)
      else
        texts ← lift_result (py_getitem data "texts");
        match texts with
        | JArr ((_ :: _) as items) =>
            valid ← lift_result (valid_texts items);
            if (length valid =? 0)%nat then
              mret (error_body "No valid texts provided", 400%Z)
            else
              emit (LogInfo [JStr "Creating embeddings for ";
                             JInt (Z.of_nat (length valid)); JStr " texts"]);;
              embeddings ← encode E valid;
              let embeddings_list := json_of_vector <$> embeddings in
              emit (LogInfo [JStr "Generated ";
                             JInt (Z.of_nat (length embeddings_list));
                             JStr " embeddings"]);;
              mret (JObj [
                ("success", JBool true);
                ("embeddings", JArr embeddings_list);
                ("count", JInt (Z.of_nat (length embeddings_list)));
                ("dimensions",
                 JInt (match embeddings with
                       | first :: _ => Z.of_nat (length first)
                       | [] => 0
                       end));
                ("model", JStr (MODEL_NAME E))], 200%Z)
        | _ => mret (error_body "Invalid texts array", 400%Z)
        end
  end.

Definition create_batch_embeddings_except (e : exn) : M world (json * Z) :=
  emit (LogError [JStr "Batch embedding creation failed: "; JStr e]);;
  mret (failure_body e, 500%Z).

(** [POST /embed/batch] *)
Definition create_batch_embeddings {U} (E : env) (req : request U) (w0 : world)
  : outcome * world :=
  match try_except (create_batch_embeddings_try E req)
          create_batch_embeddings_except w0 with
  | (Ok (body, status), w) => (Response body status, w)
  | (Raise e, w) => (Unhandled e, w)
  end.

(** [embeddings[i]] on the encoder's array. *)
Definition row (embeddings : list vector) (i : nat) : result vector :=
  match embeddings !! i with
  | Some v => Ok v
  | None => Raise ("index " +:+ pretty i +:+ " is out of bounds for axis 0 with size "
                   +:+ pretty (length embeddings))
  end.

(** [np.dot(a, b) / (np.linalg.norm(a) * np.linalg.norm(b))] *)
Definition cosine (N : numpy) (a b : vector) : float :=
  np_true_divide N (np_dot N a b)
    (np_multiply N (np_linalg_norm N a) (np_linalg_norm N b)).

(** [not text1.strip() or not text2.strip()] *)
Definition either_blank (text1 text2 : json) : result bool :=
  s1 ← py_strip text1;
  if String.eqb s1 "" then mret true
  else s2 ← py_strip text2; mret (String.eqb s2 "").

(** [not data or 'text1' not in data or 'text2' not in data] *)
Definition lacks_either (data : json) : result bool :=
  no1 ← lacks data "text1";
  if no1 : bool then mret true
  else present ← py_in "text2" data; mret (negb present).

Definition compute_similarity_try {U} (E : env) (req : request U)
  : M world (json * Z) :=
  match embedding_model E with
  | None => mret (error_body "Embedding model not loaded", 500%Z)
  | Some _ =>
      data ← lift_result (get_json req);
      missing ← lift_result (lacks_either data);
      if missing : bool then
        mret (error_body "Both text1 and text2 required", 400%Z)
      else
        text1 ← lift_result (py_getitem data "text1");
        text2 ← lift_result (py_getitem data "text2");
        blank ← lift_result (either_blank text1 text2);
        if blank : bool then mret (error_body "Empty texts provided", 400%Z)
        else
          emit (LogInfo [JStr "Computing similarity between two texts"]);;
          embeddings ←
            match text1, text2 with
            | JStr t1, JStr t2 => encode E [t1; t2]
            | _, _ => raise (attribute_error text1 "strip") (* both were stripped *)
            end;
          e0 ← lift_result (row embeddings 0);
          e1 ← lift_result (row embeddings 1);
          let similarity := cosine (np E) e0 e1 in
          mret (JObj [("success", JBool true);
                      ("similarity", JFloat similarity);
                      ("model", JStr (MODEL_NAME E))], 200%Z)
  end.

Definition compute_similarity_except (e : exn) : M world (json * Z) :=
  emit (LogError [JStr "Similarity computation failed: "; JStr e]);;
  mret (failure_body e, 500%Z).

(** [POST /similarity] *)
Definition compute_similarity {U} (E : env) (req : request U) (w0 : world)
  : outcome * world :=
  match try_except (compute_similarity_try E req)
          compute_similarity_except w0 with
  | (Ok (body, status), w) => (Response body status, w)
  | (Raise e, w) => (Unhandled e, w)
  end.

(** [embedding_model.encode(text)] on one text: the library wraps the
    text into a one-element list and returns the first row of the result. *)
Definition encode_one (E : env) (text : string) : M world vector :=
  rows ← encode E [text];
  lift_result (row rows 0).

Definition create_embedding_try {U} (E : env) (req : request U)
  : M world (json * Z) :=
  match embedding_model E with
  | None => mret (error_body "Embedding model not loaded", 500%Z)
  | Some _ =>
      data ← lift_result (get_json req);
      missing ← lift_result (lacks data "text");
      if missing : bool then mret (error_body "No text provided", 400%Z)
      else
        text ← lift_result (py_getitem data "text");
        stripped ← lift_result (py_strip text);
        if String.eqb stripped "" then
          mret (error_body "Empty text provided", 400%Z)
        else
          match text with
          | JStr t =>
              emit (LogInfo [JStr "Creating embedding for text of length ";
                             JInt (Z.of_nat (String.length t))]);;
              embedding ← encode_one E t;
              let embedding_list := JFloat <$> embedding in
              emit (LogInfo [JStr "Generated embedding with ";
                             JInt (Z.of_nat (length embedding_list));
                             JStr " dimensions"]);;
              mret (JObj [("success", JBool true);
                          ("embedding", JArr embedding_list);
                          ("dimensions", JInt (Z.of_nat (length embedding_list)));
                          ("model", JStr (MODEL_NAME E))], 200%Z)
          | _ => raise (attribute_error text "strip") (* it was stripped *)
          end
  end.

Definition create_embedding_except (e : exn) : M world (json * Z) :=
  emit (LogError [JStr "Embedding creation failed: "; JStr e]);;
  mret (failure_body e, 500%Z).

(** [POST /embed] *)
Definition create_embedding {U} (E : env) (req : request U) (w0 : world)
  : outcome * world :=
  match try_except (create_embedding_try E req) create_embedding_except w0 with
  | (Ok (body, status), w) => (Response body status, w)
  | (Raise e, w) => (Unhandled e, w)
  end.

End Embedding.

(* ===================================================================== *)
(** * Part IV bis: the chat server's runtime management                   *)
(* ===================================================================== *)

(** [start_ollama], [ensure_model_available], [list_models] and
    [setup_ollama] talk to the runtime several times, and the runtime may
    answer differently each time.  Its answers are therefore indexed by
    the number of requests sent to it so far. *)
Module ChatAdmin.
Import Py.

Inductive event : Type :=
| Base (e : Chat.event)
| Popen
| Sleep (seconds : Z)
| FetchTags
| PostPull (payload : json).

Record world : Type := {
  clock : nat;
  events : list event;
}.

Record env : Type := {
  base : Chat.env;
  (** the answer to [GET /api/tags] sent as the [n]-th request *)
  tags_at : nat -> result Chat.http_reply;
  (** the answer to [POST /api/pull] sent as the [n]-th request *)
  pull_at : nat -> result Chat.http_reply;
  (** [subprocess.Popen(['ollama', 'serve'], ...)] *)
  popen : result unit;
}.

Definition OLLAMA_MODEL (A : env) : string := Chat.OLLAMA_MODEL (base A).

(** The chat server's view of the runtime when its [n]-th request is the
    probe. *)
Definition chat_env_at (A : env) (n : nat) : Chat.env :=
  {| Chat.OLLAMA_MODEL := Chat.OLLAMA_MODEL (base A);
     Chat.get_tags := (reply ← tags_at A n; mret (Chat.status_code reply));
     Chat.post_generate := Chat.post_generate (base A);
     Chat.str_other := Chat.str_other (base A) |}.

Definition emit (e : event) : M world unit :=
  modify (fun s => {| clock := clock s; events := (events s ++ [e])%list |}).
Definition log_info (parts : list json) : M world unit :=
  emit (Base (Chat.LogInfo parts)).
Definition log_error (parts : list json) : M world unit :=
  emit (Base (Chat.LogError parts)).

(** The index of the request being sent; the next one gets the next index. *)
Definition next_request : M world nat :=
  fun s => (Ok (clock s), {| clock := S (clock s); events := events s |}).

(** [check_ollama_running()], sent as the next request. *)
Definition check_ollama_running (A : env) : M world bool :=
  fun s =>
    let '(r, t) := Chat.check_ollama_running (chat_env_at A (clock s)) [] in
    (r, {| clock := S (clock s); events := (events s ++ (Base <$> t))%list |}).

Definition start_ollama (A : env) : M world bool :=
  try_except
    (running ← check_ollama_running A;
     (if negb running then
        log_info [JStr "Starting Ollama..."];;
        emit Popen;;
        lift_result (popen A);;
        emit (Sleep 3)
      else mret tt);;
     check_ollama_running A)
    (fun e =>
       log_error [JStr "Failed to start Ollama: "; JStr e];;
       mret false).

(** [[model['name'] for model in models]] *)
Fixpoint model_names (models : list json) : result (list json) :=
  match models with
  | [] => mret []
  | model :: rest =>
      name ← py_getitem model "name";
      names ← model_names rest;
      mret (name :: names)
  end.

(** [response = requests.get(OLLAMA_URL/api/tags)] and, for status 200,
    the names of [response.json().get('models', [])]. *)
Definition fetch_tags (A : env) : M world Chat.http_reply :=
  emit FetchTags;;
  n ← next_request;
  lift_result (tags_at A n).

Definition installed_models (response : Chat.http_reply) : result (list json) :=
  body ← Chat.json_body response;
  models ← py_get body "models" (JArr []);
  items ← py_iter models;
  model_names items.

Definition ensure_model_available (A : env) : M world bool :=
  try_except
    (running ← check_ollama_running A;
     if negb running then mret false
     else
       response ← fetch_tags A;
       if (Chat.status_code response =? 200)%Z then
         names ← lift_result (installed_models response);
         if negb (existsb (is_str (OLLAMA_MODEL A)) names) then
           log_info [JStr "Model "; JStr (OLLAMA_MODEL A);
                     JStr " not found. Available models: "; JArr names];;
           log_info [JStr "Pulling model "; JStr (OLLAMA_MODEL A);
                     JStr "... This may take a while."];;
           emit (PostPull (JObj [("name", JStr (OLLAMA_MODEL A))]));;
           n ← next_request;
           pull_response ← lift_result (pull_at A n);
           if (Chat.status_code pull_response =? 200)%Z then
             log_info [JStr "Model "; JStr (OLLAMA_MODEL A);
                       JStr " pulled successfully"];;
             mret true
           else
             log_error [JStr "Failed to pull model: ";
                        JStr (Chat.text pull_response)];;
             mret false
         else
           log_info [JStr "Model "; JStr (OLLAMA_MODEL A); JStr " is available"];;
           mret true
       else mret false)
    (fun e =>
       log_error [JStr "Error checking model availability: "; JStr e];;
       mret false).





Definition setup_ollama_try (A : env) : M world (json * Z) :=
  log_info [JStr "Setting up Ollama..."];;
  started ← start_ollama A;
  if negb started then mret (Chat.error_body "Failed to start Ollama", 500%Z)
  else
    available ← ensure_model_available A;
    if negb available then
      mret (Chat.error_body ("Failed to setup model " +:+ OLLAMA_MODEL A), 500%Z)
    else
      mret (JObj [("success", JBool true);
                  ("message", JStr ("Ollama setup complete with model "
                                    +:+ OLLAMA_MODEL A));
                  ("model", JStr (OLLAMA_MODEL A))], 200%Z).

Definition setup_ollama_except (e : exn) : M world (json * Z) :=
  log_error [JStr "Setup failed: "; JStr e];;
  mret (Chat.error_body e, 500%Z).

(** [POST /setup] *)
Definition setup_ollama (A : env) (s0 : world) : outcome * world :=
  match try_except (setup_ollama_try A) setup_ollama_except s0 with
  | (Ok (body, status), s) => (Response body status, s)
  | (Raise e, s) => (Unhandled e, s)
  end.

End ChatAdmin.

(* ===================================================================== *)
(** * Part V: the vocabulary of the specification                         *)
(* ===================================================================== *)

(** The notions the properties are stated with, defined from the
    specification's words and independently of the code above. *)
Module Spec.
Import Py.

(** Empty or whitespace-only. *)
Fixpoint blank (s : string) : bool :=
  match s with
  | EmptyString => true
  | String c s' => is_space c && blank s'
  end.

Definition head_space (s : string) : bool :=
  match s with
  | String c _ => is_space c
  | EmptyString => false
  end.

Fixpoint last_space (s : string) : bool :=
  match s with
  | EmptyString => false
  | String c EmptyString => is_space c
  | String _ s' => last_space s'
  end.

(** [t] is [s] without its leading and trailing whitespace. *)
Definition stripped_of (s t : string) : Prop :=
  (exists pre post, s = pre +:+ t +:+ post /\ blank pre = true /\ blank post = true)
  /\ head_space t = false /\ last_space t = false.

(** The number of whitespace-separated words: the positions where a
    character that is not whitespace follows the start of the text or a
    whitespace character. *)
Fixpoint count_words_from (in_word : bool) (s : string) : nat :=
  match s with
  | EmptyString => 0
  | String c s' =>
      if is_space c then count_words_from false s'
      else (if in_word then 0 else 1) + count_words_from true s'
  end.

Definition count_words (s : string) : nat := count_words_from false s.

(** The label the chat prompt gives to a role. *)
Definition role_label (role : string) : option string :=
  if String.eqb role "system" then Some "System: "
  else if String.eqb role "user" then Some "Human: "
  else if String.eqb role "assistant" then Some "Assistant: "
  else None.

(** A chat message of the data model: a role and a text.  [reads_as item m]
    says that the JSON object [item] carries them. *)
Definition reads_as (item : json) (m : string * string) : Prop :=
  exists kv, item = JObj kv
             /\ assoc "role" kv = Some (JStr m.1)
             /\ assoc "content" kv = Some (JStr m.2).

(** The line of a message: its label, its content, a line feed. *)
Definition prompt_line (m : string * string) : option string :=
  match role_label m.1 with
  | Some label => Some (label +:+ m.2 +:+ nl)
  | None => None
  end.

(** Concatenation in order. *)
Fixpoint join (l : list string) : string :=
  match l with
  | [] => ""
  | s :: l' => s +:+ join l'
  end.

(** A JSON body that holds no [audio_url]: a value that counts as false,
    an object without the key, an array without the element, a string
    without the substring. *)
Definition lacks_audio_url (j : json) : Prop :=
  match j with
  | JObj kv => assoc "audio_url" kv = None
  | JArr l => existsb (is_str "audio_url") l = false
  | JStr s => is_substring "audio_url" s = false
  | _ => truthy j = false
  end.

(** A JSON body that is a number or a boolean and counts as true. *)
Definition true_scalar (j : json) : Prop :=
  match j with
  | JBool _ | JInt _ | JFloat _ => truthy j = true
  | _ => False
  end.

(** A JSON value that is not a string. *)
Definition not_text (j : json) : Prop := forall s, j <> JStr s.

(** The real number a float stands for.  An infinity or a NaN stands for
    none, and is given 0. *)
Definition real_of (f : float) : R :=
  match Prim2SF f with
  | S754_finite sign m e =>
      ((if sign then -1 else 1) * IZR (Z.pos m) * powerRZ 2 e)%R
  | _ => 0%R
  end.

(** The inner product and the Euclidean norm in exact arithmetic, what
    numpy's [dot] of two one-dimensional arrays and [linalg.norm] of one
    approximate. *)
Fixpoint dot (a b : list R) : R :=
  match a, b with
  | x :: a', y :: b' => (x * y + dot a' b')%R
  | _, _ => 0%R
  end.

Definition norm (a : list R) : R := R_sqrt.sqrt (dot a a).

(** [computed] is [exact] up to the relative error [eps]. *)
Definition close (eps computed exact : R) : Prop :=
  (Rabs (computed - exact) <= eps * Rabs exact)%R.

(** The four numpy operations, where the similarity of a row with itself
    uses them, are accurate to the relative error [eps]: the dot product
    and the norm of the row against their exact values, the product of
    the two norms and the final quotient against the exact product and
    quotient of their operands. *)
Definition accurate_on (N : Embedding.numpy) (eps : R) (e : Embedding.vector)
  : Prop :=
  let d := Embedding.np_dot N e e in
  let n := Embedding.np_linalg_norm N e in
  let m := Embedding.np_multiply N n n in
  close eps (real_of d) (dot (real_of <$> e) (real_of <$> e))
  /\ close eps (real_of n) (norm (real_of <$> e))
  /\ close eps (real_of m) (real_of n * real_of n)
  /\ close eps (real_of (Embedding.np_true_divide N d m)) (real_of d / real_of m).

(** A segment of a transcription result. *)
Definition segment_json (text : string) (start stop : float) : json :=
  JObj [("text", JStr text); ("start", JFloat start); ("end", JFloat stop)].

(** Reading a path of keys in a JSON body. *)
Fixpoint at_path (j : json) (keys : list string) : option json :=
  match keys with
  | [] => Some j
  | k :: ks => match j with
               | JObj kv => match assoc k kv with
                            | Some v => at_path v ks
                            | None => None
                            end
               | _ => None
               end
  end.

End Spec.

(** Further vocabulary, for the runtime management. *)
Module Admin.
Import Py.

(** The runtime answers its [n]-th request, a probe, with status 200. *)
Definition running_at (A : ChatAdmin.env) (n : nat) : bool :=
  match ChatAdmin.tags_at A n with
  | Ok reply => (Chat.status_code reply =? 200)%Z
  | Raise _ => false
  end.

(** The configured model is among the installed ones. *)
Definition installed (A : ChatAdmin.env) (names : list json) : bool :=
  existsb (is_str (ChatAdmin.OLLAMA_MODEL A)) names.

End Admin.

(* ===================================================================== *)
(** * Part VI: sample environments and requests                           *)
(* ===================================================================== *)

(** Concrete inputs on which the properties below are exercised. *)

Import Py.

(** A model that hears two segments. *)
Definition whisper_two_segments : Whisper.whisper_result :=
  {| Whisper.r_text := " Hello world. Bye.";
     Whisper.r_segments :=
       Some [ {| Whisper.seg_text := " Hello world."; Whisper.seg_start := 0;
                 Whisper.seg_end := 1.5 |};
              {| Whisper.seg_text := " Bye."; Whisper.seg_start := 1.5;
                 Whisper.seg_end := 2 |} ];
     Whisper.r_language := Some "en" |}.

Definition whisper_env_loaded : Whisper.env :=
  {| Whisper.whisper_model := Some (fun _ => Ok whisper_two_segments);
     Whisper.requests_get := fun _ => Raise "connection refused";
     Whisper.unlink_error := fun _ => None |}.

Definition empty_disk : Whisper.world :=
  {| Whisper.fs := ∅; Whisper.trace := [] |}.


(** A request whose JSON body is the number 5, and no upload. *)
Definition request_json_number : request Whisper.upload :=
  {| files := Ok ∅; is_json := true; get_json := Ok (JInt 5) |}.

(** A request with neither an upload nor a JSON body. *)
Definition request_plain : request Whisper.upload :=
  {| files := Ok ∅; is_json := false;
     get_json := Raise "415 Unsupported Media Type" |}.

Definition sample_upload : Whisper.upload :=
  {| Whisper.up_content := "RIFF"; Whisper.up_save_error := None |}.

(** An upload together with a JSON body that names a URL. *)
Definition request_upload_and_url : request Whisper.upload :=
  {| files := Ok {[ "audio_file" := sample_upload ]}; is_json := true;
     get_json := Ok (JObj [("audio_url", JStr "http://host/a.mp3")]) |}.

Definition request_upload : request Whisper.upload :=
  {| files := Ok {[ "audio_file" := sample_upload ]}; is_json := false;
     get_json := Raise "415 Unsupported Media Type" |}.

Definition whisper_env_unloaded : Whisper.env :=
  {| Whisper.whisper_model := None;
     Whisper.requests_get := fun _ => Raise "connection refused";
     Whisper.unlink_error := fun _ => None |}.

(** The model is loaded but temporary files cannot be deleted. *)
Definition whisper_env_locked : Whisper.env :=
  {| Whisper.whisper_model := Some (fun _ => Ok whisper_two_segments);
     Whisper.requests_get := fun _ => Raise "connection refused";
     Whisper.unlink_error := fun _ => Some "[Errno 13] Permission denied" |}.

Definition response_404 : Whisper.http_response :=
  {| Whisper.status_code := 404; Whisper.reason := "Not Found";
     Whisper.final_url := "http://host/a.mp3";
     Whisper.chunks := ["<html>not found</html>"];
     Whisper.stream_error := None |}.

(** Every fetch is answered with 404. *)
Definition whisper_env_404 : Whisper.env :=
  {| Whisper.whisper_model := Some (fun _ => Ok whisper_two_segments);
     Whisper.requests_get := fun _ => Ok response_404;
     Whisper.unlink_error := fun _ => None |}.

Definition request_url : request Whisper.upload :=
  {| files := Ok ∅; is_json := true;
     get_json := Ok (JObj [("audio_url", JStr "http://host/a.mp3")]) |}.

(** A runtime that is up and answers every prompt with the same text. *)
Definition chat_reply_ok : Chat.http_reply :=
  {| Chat.status_code := 200; Chat.text := "ok";
     Chat.json_body := Ok (JObj [("response", JStr "Hello there, friend.")]) |}.

Definition chat_env : Chat.env :=
  {| Chat.OLLAMA_MODEL := "llama2:7b";
     Chat.get_tags := Ok 200%Z;
     Chat.post_generate := fun _ => Ok chat_reply_ok;
     Chat.str_other := fun _ => "None" |}.

Definition message_system : json :=
  JObj [("role", JStr "system"); ("content", JStr "Be brief.")].
Definition message_user : json :=
  JObj [("role", JStr "user"); ("content", JStr "hi")].
Definition message_no_role : json := JObj [("content", JStr "hi")].
Definition message_tool : json :=
  JObj [("role", JStr "tool"); ("content", JStr "42")].

Definition chat_request : request unit :=
  {| files := Ok ∅; is_json := true;
     get_json := Ok (JObj [("messages", JArr [message_system; message_user])]) |}.

(** A numpy that computes in double precision, and an encoder that maps
    every text to a row of two numbers. *)
Definition numpy_double : Embedding.numpy :=
  let dot := fix dot (a b : list float) : float :=
    match a, b with
    | x :: a', y :: b' => (x * y + dot a' b')%float
    | _, _ => 0%float
    end in
  {| Embedding.np_dot := dot;
     Embedding.np_linalg_norm := fun a => PrimFloat.sqrt (dot a a);
     Embedding.np_multiply := PrimFloat.mul;
     Embedding.np_true_divide := PrimFloat.div |}.

Definition toy_encoder (sentences : list string) : result (list Embedding.vector) :=
  Ok ((fun s => [1%float;
                 match String.length s with
                 | 1 => 1%float
                 | 2 => 2%float
                 | _ => 3%float
                 end]) <$> sentences).

Definition embed_env : Embedding.env :=
  {| Embedding.MODEL_NAME := "all-MiniLM-L6-v2";
     Embedding.embedding_model := Some toy_encoder;
     Embedding.np := numpy_double |}.

Definition batch_request : request unit :=
  {| files := Ok ∅; is_json := true;
     get_json := Ok (JObj [("texts", JArr [JStr "a"; JStr " "; JStr "bc"])]) |}.

Definition similarity_request : request unit :=
  {| files := Ok ∅; is_json := true;
     get_json := Ok (JObj [("text1", JStr "cat"); ("text2", JStr "dog")]) |}.

(** A server that delivers the audio in two chunks, and one whose
    transfer breaks after them. *)
Definition response_200 : Whisper.http_response :=
  {| Whisper.status_code := 200; Whisper.reason := "OK";
     Whisper.final_url := "http://host/a.mp3";
     Whisper.chunks := ["ID3"; "audio"];
     Whisper.stream_error := None |}.

Definition response_cut : Whisper.http_response :=
  {| Whisper.status_code := 200; Whisper.reason := "OK";
     Whisper.final_url := "http://host/a.mp3";
     Whisper.chunks := ["ID3"; "audio"];
     Whisper.stream_error := Some "Connection broken: IncompleteRead" |}.

Definition whisper_env_online : Whisper.env :=
  {| Whisper.whisper_model := Some (fun _ => Ok whisper_two_segments);
     Whisper.requests_get := fun _ => Ok response_200;
     Whisper.unlink_error := fun _ => None |}.

Definition whisper_env_cut : Whisper.env :=
  {| Whisper.whisper_model := Some (fun _ => Ok whisper_two_segments);
     Whisper.requests_get := fun _ => Ok response_cut;
     Whisper.unlink_error := fun _ => None |}.

Definition failing_upload : Whisper.upload :=
  {| Whisper.up_content := "RIFF";
     Whisper.up_save_error := Some "[Errno 28] No space left on device" |}.

Definition request_failing_upload : request Whisper.upload :=
  {| files := Ok {[ "audio_file" := failing_upload ]}; is_json := false;
     get_json := Raise "415 Unsupported Media Type" |}.

(** A runtime that is down, and one that is up but answers 503. *)
Definition chat_env_down : Chat.env :=
  {| Chat.OLLAMA_MODEL := "llama2:7b";
     Chat.get_tags := Raise "connection refused";
     Chat.post_generate := fun _ => Raise "connection refused";
     Chat.str_other := fun _ => "None" |}.

Definition chat_reply_busy : Chat.http_reply :=
  {| Chat.status_code := 503; Chat.text := "model is loading";
     Chat.json_body := Raise "Expecting value" |}.

Definition chat_env_busy : Chat.env :=
  {| Chat.OLLAMA_MODEL := "llama2:7b";
     Chat.get_tags := Ok 200%Z;
     Chat.post_generate := fun _ => Ok chat_reply_busy;
     Chat.str_other := fun _ => "None" |}.

Definition chat_request_no_messages : request unit :=
  {| files := Ok ∅; is_json := true;
     get_json := Ok (JObj [("messages", JArr [])]) |}.

Definition chat_request_bad_message : request unit :=
  {| files := Ok ∅; is_json := true;
     get_json := Ok (JObj [("messages", JArr [message_user; JStr "hi"])]) |}.

(** A runtime that lists two installed models, and one that cannot be
    reached nor started. *)
Definition tags_reply : Chat.http_reply :=
  {| Chat.status_code := 200; Chat.text := "ok";
     Chat.json_body :=
       Ok (JObj [("models", JArr [JObj [("name", JStr "llama2:7b")];
                                  JObj [("name", JStr "mistral:7b")]])]) |}.

Definition admin_env_ready : ChatAdmin.env :=
  {| ChatAdmin.base := chat_env;
     ChatAdmin.tags_at := fun _ => Ok tags_reply;
     ChatAdmin.pull_at := fun _ => Raise "connection refused";
     ChatAdmin.popen := Ok tt |}.

Definition admin_env_down : ChatAdmin.env :=
  {| ChatAdmin.base := chat_env_down;
     ChatAdmin.tags_at := fun _ => Raise "connection refused";
     ChatAdmin.pull_at := fun _ => Raise "connection refused";
     ChatAdmin.popen := Raise "[Errno 2] No such file or directory: 'ollama'" |}.

Definition first_request : ChatAdmin.world :=
  {| ChatAdmin.clock := 0; ChatAdmin.events := [] |}.

Definition embed_request : request unit :=
  {| files := Ok ∅; is_json := true;
     get_json := Ok (JObj [("text", JStr "hello")]) |}.

Definition batch_request_mixed : request unit :=
  {| files := Ok ∅; is_json := true;
     get_json := Ok (JObj [("texts", JArr [JStr "a"; JNull; JInt 5])]) |}.

(** A server that answers the fetch with status 300 and a page. *)
Definition response_300 : Whisper.http_response :=
  {| Whisper.status_code := 300; Whisper.reason := "Multiple Choices";
     Whisper.final_url := "http://host/a.mp3";
     Whisper.chunks := ["<html>choices</html>"];
     Whisper.stream_error := None |}.

Definition whisper_env_300 : Whisper.env :=
  {| Whisper.whisper_model := Some (fun _ => Ok whisper_two_segments);
     Whisper.requests_get := fun _ => Ok response_300;
     Whisper.unlink_error := fun _ => None |}.

(** A multipart body over the parser's limits, without [audio_file]. *)
Definition request_oversized : request Whisper.upload :=
  {| files := Raise "413 Request Entity Too Large: The data value transmitted exceeds the capacity limit.";
     is_json := false;
     get_json := Raise "415 Unsupported Media Type" |}.

(** Bodies that hold no usable text: the number 5, a [text1] that is
    [null], a body that does not parse. *)
Definition request_body_number : request unit :=
  {| files := Ok ∅; is_json := true; get_json := Ok (JInt 5) |}.

Definition request_text1_null : request unit :=
  {| files := Ok ∅; is_json := true;
     get_json := Ok (JObj [("text1", JNull); ("text2", JStr "dog")]) |}.

Definition request_body_unparsable : request unit :=
  {| files := Ok ∅; is_json := true;
     get_json := Raise "400 Bad Request: Failed to decode JSON object" |}.

Definition request_text_null : request unit :=
  {| files := Ok ∅; is_json := true;
     get_json := Ok (JObj [("text", JNull)]) |}.

(** The same text twice, and a text of one space twice. *)
Definition similarity_request_same : request unit :=
  {| files := Ok ∅; is_json := true;
     get_json := Ok (JObj [("text1", JStr "cat"); ("text2", JStr "cat")]) |}.

Definition similarity_request_space : request unit :=
  {| files := Ok ∅; is_json := true;
     get_json := Ok (JObj [("text1", JStr " "); ("text2", JStr " ")]) |}.

(** An encoder that maps every text to the zero row, and one that maps
    every text to the row (3, 4). *)
Definition zero_encoder (sentences : list string) : result (list Embedding.vector) :=
  Ok ((fun _ => [0%float; 0%float]) <$> sentences).

Definition embed_env_zero : Embedding.env :=
  {| Embedding.MODEL_NAME := "all-MiniLM-L6-v2";
     Embedding.embedding_model := Some zero_encoder;
     Embedding.np := numpy_double |}.

Definition constant_encoder (sentences : list string) : result (list Embedding.vector) :=
  Ok ((fun _ => [3%float; 4%float]) <$> sentences).

Definition embed_env_constant : Embedding.env :=
  {| Embedding.MODEL_NAME := "all-MiniLM-L6-v2";
     Embedding.embedding_model := Some constant_encoder;
     Embedding.np := numpy_double |}.

(* ===================================================================== *)
(** * Part VII: properties                                                *)
(* ===================================================================== *)


(** ** Strings *)

Section Strings.

Lemma append_nil_l (s : string) : "" +:+ s = s.
Proof. reflexivity. Qed.

Lemma append_cons (c : Ascii.ascii) (s t : string) :
  String c s +:+ t = String c (s +:+ t).
Proof. reflexivity. Qed.

Lemma append_empty_r (s : string) : s +:+ "" = s.
Proof.
  induction s as [|c s IH]; [done |]. by rewrite append_cons, IH.
Qed.

Lemma append_assoc (a b c : string) : (a +:+ b) +:+ c = a +:+ (b +:+ c).
Proof.
  induction a as [|x a IH]; [done |]. by rewrite !append_cons, IH.
Qed.

Lemma lstrip_split (s : string) :
  exists pre, s = pre +:+ lstrip s /\ Spec.blank pre = true.
Proof.
  induction s as [|c s [pre [Heq Hpre]]]; simpl.
  - by exists "".
  - destruct (is_space c) eqn:Hc.
    + exists (String c pre). rewrite append_cons. simpl. rewrite Hc, Hpre.
      split; [congruence | done].
    + by exists "".
Qed.

Lemma lstrip_head (s : string) : Spec.head_space (lstrip s) = false.
Proof.
  induction s as [|c s IH]; simpl; [done |].
  destruct (is_space c) eqn:Hc; [done | simpl; by rewrite Hc].
Qed.

Lemma rstrip_split (s : string) :
  exists post, s = rstrip s +:+ post /\ Spec.blank post = true.
Proof.
  induction s as [|c s [post [Heq Hpost]]]; simpl.
  - by exists "".
  - destruct (rstrip s) as [|d r] eqn:Hr.
    + rewrite append_nil_l in Heq. subst post. destruct (is_space c) eqn:Hc.
      * exists (String c s). simpl. by rewrite Hc, Hpost.
      * exists s. by rewrite append_cons, append_nil_l.
    + exists post. rewrite append_cons. split; [by rewrite Heq at 1 | done].
Qed.

Lemma rstrip_last (s : string) : Spec.last_space (rstrip s) = false.
Proof.
  induction s as [|c s IH]; simpl; [done |].
  destruct (rstrip s) as [|d r] eqn:Hr.
  - destruct (is_space c) eqn:Hc; simpl; [done | by rewrite Hc].
  - exact IH.
Qed.

Lemma rstrip_head (s : string) :
  Spec.head_space s = false -> Spec.head_space (rstrip s) = false.
Proof.
  destruct s as [|c s]; simpl; [done |]. intros Hc.
  destruct (rstrip s); [by rewrite Hc | done].
Qed.

Lemma strip_stripped_of (s : string) : Spec.stripped_of s (strip s).
Proof.
  unfold strip. destruct (lstrip_split s) as [pre [Hs Hpre]].
  destruct (rstrip_split (lstrip s)) as [post [Hl Hpost]].
  split; [| split].
  - exists pre, post. split; [| done]. rewrite Hs at 1. by rewrite Hl at 1.
  - apply rstrip_head, lstrip_head.
  - apply rstrip_last.
Qed.

Lemma blank_lstrip (s : string) : Spec.blank s = true -> lstrip s = "".
Proof.
  induction s as [|c s IH]; simpl; [done |].
  destruct (is_space c); simpl; [exact IH | done].
Qed.

Lemma lstrip_nonblank (s : string) : Spec.blank s = false -> lstrip s <> "".
Proof.
  induction s as [|c s IH]; simpl; [done |].
  destruct (is_space c); simpl; [exact IH | done].
Qed.

Lemma rstrip_head_nonempty (s : string) :
  Spec.head_space s = false -> s <> "" -> rstrip s <> "".
Proof.
  destruct s as [|c s]; simpl; [done |]. intros Hc _.
  destruct (rstrip s); [by rewrite Hc | done].
Qed.

(** A text strips to the empty string exactly when it is empty or
    whitespace-only. *)
Lemma strip_empty_iff_blank (s : string) :
  String.eqb (strip s) "" = Spec.blank s.
Proof.
  destruct (Spec.blank s) eqn:Hb.
  - unfold strip. by rewrite (blank_lstrip _ Hb).
  - apply String.eqb_neq. unfold strip.
    apply rstrip_head_nonempty; [apply lstrip_head | by apply lstrip_nonblank].
Qed.

Lemma split_run_count (s : string) :
  Spec.count_words_from true s = length (split_run s).2
  /\ Spec.count_words_from false s
     = length (split_run s).2 + (if String.eqb (split_run s).1 "" then 0 else 1).
Proof.
  induction s as [|c s [IHt IHf]]; simpl; [done |].
  destruct (split_run s) as [w ws] eqn:Hs. simpl in *.
  destruct (is_space c); simpl.
  - rewrite IHf. destruct w; simpl; lia.
  - rewrite IHt. lia.
Qed.

(** [len(s.split())] is the number of whitespace-separated words. *)
Lemma length_split (s : string) : length (split s) = Spec.count_words s.
Proof.
  unfold split, Spec.count_words. destruct (split_run_count s) as [_ ->].
  destruct (split_run s) as [w ws]. simpl. destruct w; simpl; lia.
Qed.

Example strip_example : strip (" Hello world. " +:+ nl) = "Hello world.".
Proof. reflexivity. Qed.

Example split_example :
  split ("System: Be brief." +:+ nl +:+ "Human:  hi" +:+ nl +:+ "Assistant: ")
  = ["System:"; "Be"; "brief."; "Human:"; "hi"; "Assistant:"].
Proof. reflexivity. Qed.

End Strings.

(** A dict that has a key is not empty. *)
Lemma assoc_truthy (k : string) (kv : list (string * json)) (v : json) :
  assoc k kv = Some v -> truthy (JObj kv) = true.
Proof. by destruct kv. Qed.

(** Unfolding the monad, for goals that run a handler on a given state. *)
Ltac run :=
  unfold try_except, zoom, lift_result, raise, get, modify;
  unfold mbind, M_bind, result_bind, bind, mret, M_ret, result_ret, ret;
  simpl.

(** ** The transcription server *)

Section Transcription.
Import Whisper.

Variable E : env.

Lemma forall2_format_segment (l : list segment) :
  Forall2 (fun j s => exists t,
             j = Spec.segment_json t (seg_start s) (seg_end s)
             /\ Spec.stripped_of (seg_text s) t)
          (format_segment <$> l) l.
Proof.
  induction l as [|s l IH]; simpl; constructor; [| exact IH].
  exists (strip (seg_text s)). split; [done | apply strip_stripped_of].
Qed.

(** C8. Whenever the model transcribes the file, [transcribe_audio_file]
    returns a result with the model's full text, the detected language
    (["unknown"] if the model gave none) and a list of segments, each the
    model's segment with its text stripped and its start and end kept;
    when the model gave no segments the list is the single segment of
    the stripped full text with start and end [0.0].  The files are left
    as they were. *)
Theorem transcribe_audio_file_result
    (file_path : path) (w : world)
    (model : option bytes -> result whisper_result) (r : whisper_result) :
  whisper_model E = Some model ->
  model (fs w !! file_path) = Ok r ->
  exists out w' segs,
    transcribe_audio_file E file_path w = (Ok out, w')
    /\ fs w' = fs w
    /\ Spec.at_path out ["text"] = Some (JStr (r_text r))
    /\ Spec.at_path out ["language"]
       = Some (JStr (default "unknown" (r_language r)))
    /\ Spec.at_path out ["segments"] = Some (JArr segs)
    /\ match r_segments r with
       | Some l =>
           Forall2 (fun j s => exists t,
                      j = Spec.segment_json t (seg_start s) (seg_end s)
                      /\ Spec.stripped_of (seg_text s) t) segs l
       | None =>
           exists t, segs = [Spec.segment_json t 0 0]
                     /\ Spec.stripped_of (r_text r) t
       end.
Proof.
  intros Hmodel Hr. unfold transcribe_audio_file, emit. run.
  rewrite Hmodel. simpl. rewrite Hr. simpl.
  eexists _, _, (format_segments r). repeat split.
  unfold format_segments. destruct (r_segments r) as [l|].
  - apply forall2_format_segment.
  - exists (strip (r_text r)). split; [done | apply strip_stripped_of].
Qed.

End Transcription.

Lemma transcribe_audio_file_result_witness :
  exists out w' segs,
    Whisper.transcribe_audio_file whisper_env_loaded 0%N empty_disk = (Ok out, w')
    /\ Spec.at_path out ["segments"] = Some (JArr segs)
    /\ length segs = 2.
Proof.
  destruct (transcribe_audio_file_result whisper_env_loaded 0%N empty_disk
              (fun _ => Ok whisper_two_segments) whisper_two_segments
              eq_refl eq_refl)
    as (out & w' & segs & Hrun & _ & _ & _ & Hsegs & Hall).
  exists out, w', segs. split; [exact Hrun |]. split; [exact Hsegs |].
  simpl in Hall. by apply Forall2_length in Hall.
Defined.

Section TranscribeRequest.
Import Whisper.

Variable E : env.

Lemma has_audio_url_lacking (req : request upload) :
  is_json req = false
  \/ (exists j, get_json req = Ok j /\ Spec.lacks_audio_url j) ->
  has_audio_url req = Ok false.
Proof.
  unfold has_audio_url. intros [-> | (j & -> & Hj)]; [done |].
  destruct (is_json req); [| done].
  destruct j as [|b|z|f|s|l|kv]; simpl in *; rewrite ?Hj; try done.
  - by destruct (negb (s =? ""))%string.
  - by destruct l.
  - by destruct kv.
Qed.

Lemma has_audio_url_raising (req : request upload) :
  is_json req = true ->
  (exists e, get_json req = Raise e)
  \/ (exists j, get_json req = Ok j /\ Spec.true_scalar j) ->
  exists e, has_audio_url req = Raise e.
Proof.
  unfold has_audio_url. intros -> [(e & ->) | (j & -> & Hj)]; [by exists e |].
  destruct j as [|b|z|f|s|l|kv]; simpl in *; try done; rewrite Hj; eauto.
Qed.

(** C7, as the code has it.  Take a request whose form can be read and
    holds no [audio_file].  If its body is not JSON, or is JSON holding no
    [audio_url], it is answered with status 400 and an error body, and
    nothing at all has been done: no file, no download, no model call, no
    log line.  If its JSON body does not parse, or is a true number or
    boolean, the test for the URL raises and the answer has status 500,
    the files untouched.  A request whose form cannot be read
    ([request.files] raises) is answered with status 500 and that error,
    the files untouched as well.  With an uploaded file the JSON body is
    never looked at. *)
Theorem transcribe_without_audio (w : world) :
  (forall (req : request upload) (form : gmap string upload),
      files req = Ok form ->
      form !! "audio_file" = None ->
      is_json req = false
      \/ (exists j, get_json req = Ok j /\ Spec.lacks_audio_url j) ->
      transcribe E req w
      = (Response (JObj [("error", JStr "No audio_url or audio_file provided")])
           400, w))
  /\ (forall (req : request upload) (form : gmap string upload),
        files req = Ok form ->
        form !! "audio_file" = None ->
        is_json req = true ->
        (exists e, get_json req = Raise e)
        \/ (exists j, get_json req = Ok j /\ Spec.true_scalar j) ->
        exists e w',
          transcribe E req w
          = (Response (JObj [("success", JBool false); ("error", JStr e)]) 500, w')
          /\ fs w' = fs w
          /\ trace w'
             = (trace w ++ [LogError [JStr "Transcription request failed: ";
                                      JStr e]])%list)
  /\ (forall (req : request upload) (e : exn),
        files req = Raise e ->
        transcribe E req w
        = (Response (JObj [("success", JBool false); ("error", JStr e)]) 500,
           {| fs := fs w;
              trace := (trace w ++ [LogError [JStr "Transcription request failed: ";
                                              JStr e]])%list |}))
  /\ (forall (req req' : request upload) (form : gmap string upload),
        files req = Ok form ->
        is_Some (form !! "audio_file") ->
        files req' = files req ->
        transcribe E req' w = transcribe E req w).
Proof.
  split; [| split; [| split]].
  - intros req form Hform Hfile Hbody. apply has_audio_url_lacking in Hbody.
    unfold transcribe, transcribe_try, acquire_audio, assign_temp_file_path.
    rewrite Hform. run. rewrite Hfile, Hbody. run. done.
  - intros req form Hform Hfile Hjson Hbody.
    destruct (has_audio_url_raising req Hjson Hbody) as [e He].
    exists e. eexists.
    unfold transcribe, transcribe_try, transcribe_except, acquire_audio,
      assign_temp_file_path, cleanup, in_world, emit.
    rewrite Hform. run. rewrite Hfile, He. run. done.
  - intros req e Hform.
    unfold transcribe, transcribe_try, transcribe_except, acquire_audio,
      assign_temp_file_path, cleanup, in_world, emit.
    rewrite Hform. run. done.
  - intros req req' form Hform [u Hu] Hfiles.
    unfold transcribe, transcribe_try, acquire_audio.
    rewrite Hfiles, Hform. run. by rewrite Hu.
Qed.

End TranscribeRequest.

Lemma transcribe_without_audio_witness :
  Whisper.transcribe whisper_env_loaded request_plain empty_disk
  = (Response (JObj [("error", JStr "No audio_url or audio_file provided")]) 400,
     empty_disk)
  /\ (exists e w',
        Whisper.transcribe whisper_env_loaded request_oversized empty_disk
        = (Response (JObj [("success", JBool false); ("error", JStr e)]) 500, w')
        /\ Whisper.fs w' = Whisper.fs empty_disk)
  /\ Whisper.transcribe whisper_env_loaded request_upload_and_url empty_disk
     = Whisper.transcribe whisper_env_loaded request_upload empty_disk.
Proof.
  destruct (transcribe_without_audio whisper_env_loaded empty_disk)
    as (Hnone & _ & Hform & Hprio).
  split; [| split].
  - apply (Hnone _ ∅); [reflexivity | reflexivity | by left].
  - eexists _, _. split; [apply Hform; reflexivity | reflexivity].
  - apply (Hprio _ _ {[ "audio_file" := sample_upload ]});
      [reflexivity | by eexists | reflexivity].
Defined.

(** C7 as stated fails: a request without upload whose JSON body is the
    number 5 supplies no [audio_url], yet is answered with status 500. *)
Lemma transcribe_json_number_is_500 :
  files request_json_number = Ok ∅
  /\ get_json request_json_number = Ok (JInt 5)
  /\ (exists w',
        Whisper.transcribe whisper_env_loaded request_json_number empty_disk
        = (Response (JObj [("success", JBool false);
                           ("error", JStr "argument of type 'int' is not iterable")])
             500, w'))
  /\ forall body w',
      Whisper.transcribe whisper_env_loaded request_json_number empty_disk
      <> (Response body 400, w').
Proof.
  split; [done |]. split; [done |]. split; [eexists; reflexivity |].
  intros body w'. vm_compute. discriminate.
Qed.

Section TranscribeFiles.
Import Whisper.

Variable E : env.

Lemma raise_for_status_error (resp : http_response) :
  (400 <= status_code resp < 600)%Z ->
  exists e, raise_for_status resp = Raise e.
Proof.
  intros [Hlo Hhi]. unfold raise_for_status.
  destruct (Z.ltb_spec (status_code resp) 500) as [H5 | H5].
  - replace (400 <=? status_code resp)%Z with true by (symmetry; lia). simpl. eauto.
  - replace (400 <=? status_code resp)%Z with true by (symmetry; lia).
    replace (500 <=? status_code resp)%Z with true by (symmetry; lia).
    replace (status_code resp <? 600)%Z with true by (symmetry; lia). simpl. eauto.
Qed.

Lemma has_audio_url_object (req : request upload) kv url :
  is_json req = true -> get_json req = Ok (JObj kv) ->
  assoc "audio_url" kv = Some url ->
  has_audio_url req = Ok true.
Proof.
  intros Hj Hb Hu. unfold has_audio_url. rewrite Hj, Hb, (assoc_truthy _ _ _ Hu).
  simpl. by rewrite Hu.
Qed.

(** C4, as the code has it.  A request without upload whose JSON body
    names an [audio_url], and whose fetch is answered with an error status
    (400 to 599, the statuses on which [raise_for_status] raises), gets
    status 500 with the fetch error as message.  The files are as before,
    and the four events of the request show that no temporary file was
    created or written. *)
Theorem transcribe_fetch_error
    (req : request upload) (w : world) (kv : list (string * json))
    (url : json) (resp : http_response) (form : gmap string upload) :
  files req = Ok form ->
  form !! "audio_file" = None ->
  is_json req = true ->
  get_json req = Ok (JObj kv) ->
  assoc "audio_url" kv = Some url ->
  requests_get E url = Ok resp ->
  (400 <= status_code resp < 600)%Z ->
  exists e w',
    transcribe E req w
    = (Response (JObj [("success", JBool false); ("error", JStr e)]) 500, w')
    /\ fs w' = fs w
    /\ trace w'
       = (trace w ++ [LogInfo [JStr "Downloading audio from: "; url];
                      HttpGet url;
                      LogError [JStr "Failed to download audio: "; JStr e];
                      LogError [JStr "Transcription request failed: "; JStr e]])%list.
Proof.
  intros Hform Hfile Hjson Hbody Hurl Hget Hstatus.
  destruct (raise_for_status_error resp Hstatus) as [e He].
  exists e. eexists.
  unfold transcribe, transcribe_try, transcribe_except, acquire_audio,
    assign_temp_file_path, cleanup, in_world, download_audio_file, emit.
  rewrite Hform. run.
  rewrite Hfile, (has_audio_url_object req kv url Hjson Hbody Hurl), Hbody.
  run. rewrite Hurl. simpl. rewrite Hget. simpl. rewrite He. simpl.
  split; [reflexivity |]. split; [done |]. by rewrite <- !app_assoc.
Qed.
Lemma fresh_path_free (w : world) : fs w !! fresh (dom (fs w)) = None.
Proof. apply not_elem_of_dom, is_fresh. Qed.

Lemma write_chunks_fs (p : path) (cs : list bytes) (w : world) (c0 : bytes) :
  fs w !! p = Some c0 ->
  exists w' c, write_chunks p cs w = (Ok tt, w')
               /\ fs w' = <[p := c]> (fs w).
Proof.
  revert w c0. induction cs as [|c cs IH]; intros w c0 Hp; simpl.
  - exists w, c0. split; [done |]. by rewrite insert_id.
  - unfold file_write, emit, set_fs. run. rewrite Hp. simpl.
    edestruct (IH {| fs := <[p := c0 +:+ c]> (fs w);
                     trace := (trace w ++ [FileWrite p c])%list |}) as (w' & c' & Hrun & Hfs).
    { simpl. apply lookup_insert_eq. }
    exists w', c'. split; [exact Hrun |]. rewrite Hfs. simpl.
    by rewrite insert_insert_eq.
Qed.

(** Once the audio is obtained, the recorded path is a new file. *)
Lemma acquire_audio_records (req : request upload) (w : world) (fr : frame) :
  acquire_audio E req {| fw := w; temp_file_path := None |} = (Ok true, fr) ->
  exists p c, temp_file_path fr = Some p
              /\ fs w !! p = None
              /\ fs (fw fr) = <[p := c]> (fs w).
Proof.
  unfold acquire_audio. destruct (files req) as [form|]; [| by run].
  run. destruct (form !! "audio_file") as [u|].
  - unfold in_world, named_temporary_file, upload_save, assign_temp_file_path,
      emit, set_fs. run.
    destruct (up_save_error u) as [e|]; simpl; [done |].
    intros [= <-]. simpl. eexists _, _. split; [done |].
    split; [apply fresh_path_free | by rewrite insert_insert_eq].
  - unfold in_world, assign_temp_file_path. run.
    destruct (has_audio_url req) as [[|]|]; simpl; try done.
    destruct (get_json req) as [body|]; simpl; try done.
    destruct (py_getitem body "audio_url") as [url|]; simpl; try done.
    unfold download_audio_file, named_temporary_file, emit, set_fs. run.
    destruct (requests_get E url) as [resp|]; simpl; try done.
    destruct (raise_for_status resp); simpl; try done.
    edestruct (write_chunks_fs (fresh (dom (fs w))) (chunks resp)) as (w' & c & Hrun & Hfs);
      [| rewrite Hrun].
    { simpl. apply lookup_insert_eq. }
    simpl in Hfs. rewrite insert_insert_eq in Hfs.
    destruct (stream_error resp); simpl; [done |].
    intros [= <-]. simpl. exists (fresh (dom (fs w))), c.
    split; [done |]. split; [apply fresh_path_free | done].
Qed.

Lemma recorded_path_exists (w : world) (fr : frame) (p : path) (c : bytes) :
  fs (fw fr) = <[p := c]> (fs w) -> p ∈ dom (fs (fw fr)).
Proof. intros ->. rewrite dom_insert_L. set_solver. Qed.

Lemma cleanup_run (fr : frame) (p : path) :
  temp_file_path fr = Some p ->
  p ∈ dom (fs (fw fr)) ->
  cleanup E fr
  = match unlink_error E p with
    | None =>
        (Ok tt,
         {| fw := {| fs := delete p (fs (fw fr));
                     trace := ((trace (fw fr) ++ [PathExists p]) ++ [Unlink p])%list |};
            temp_file_path := temp_file_path fr |})
    | Some e =>
        (Raise e,
         {| fw := {| fs := fs (fw fr);
                     trace := ((trace (fw fr) ++ [PathExists p]) ++ [Unlink p])%list |};
            temp_file_path := temp_file_path fr |})
    end.
Proof.
  intros Hp Hin. unfold cleanup, os_unlink, in_world, emit, set_fs. run.
  rewrite Hp. simpl. rewrite (decide_True _ _ Hin). simpl.
  destruct (unlink_error E p); simpl; by rewrite ?Hp.
Qed.

(** C1, as the code has it.  Take a request that has obtained its audio
    (the upload was saved, or the download completed, so that the new
    temporary file is recorded in [temp_file_path]) while the model is
    loaded.  If [os.unlink] does not fail on that file, the handler
    answers with status 200 (transcription succeeded) or 500 (it raised),
    and in both cases the file is gone and the files are exactly those
    from before the request.  If [os.unlink] raises, nothing catches it:
    the exception leaves the handler instead of a response, the file
    stays, and the failed deletion is the last thing the handler did, so
    no log line follows it. *)
Theorem transcribe_releases_temp_file
    (req : request upload) (w : world) (fr : frame) (p : path)
    (model : option bytes -> result whisper_result) :
  whisper_model E = Some model ->
  acquire_audio E req {| fw := w; temp_file_path := None |} = (Ok true, fr) ->
  temp_file_path fr = Some p ->
  match unlink_error E p with
  | None =>
      exists body status w',
        transcribe E req w = (Response body status, w')
        /\ (status = 200 \/ status = 500)%Z
        /\ fs w' = fs w
        /\ fs w' !! p = None
  | Some e =>
      exists w',
        transcribe E req w = (Unhandled e, w')
        /\ is_Some (fs w' !! p)
        /\ last (trace w') = Some (Unlink p)
  end.
Proof.
  intros Hmodel Hacq Hp.
  destruct (acquire_audio_records req w fr Hacq) as (p' & c & Hp' & Hfree & Hfs).
  assert (p' = p) as -> by congruence. clear Hp'.
  pose proof (recorded_path_exists w fr p c Hfs) as Hin.
  unfold transcribe, transcribe_try, assign_temp_file_path. run.
  rewrite Hacq. unfold transcribe_rest. rewrite Hmodel. run. rewrite Hp.
  unfold in_world, transcribe_audio_file, emit. run. rewrite Hmodel. simpl.
  destruct (model (fs (fw fr) !! p)) as [r | e1]; simpl.
  - rewrite (cleanup_run _ p) by done. simpl.
    destruct (unlink_error E p) as [e|] eqn:Hun; simpl.
    + unfold transcribe_except. run.
      rewrite (cleanup_run _ p) by done. rewrite Hun. simpl.
      eexists. split; [reflexivity |]. simpl. split.
      * apply elem_of_dom. exact Hin.
      * apply last_snoc.
    + eexists _, _, _. split; [reflexivity |]. simpl.
      split; [by left |]. rewrite Hfs, delete_insert_eq, delete_id by done. done.
  - unfold transcribe_except. run.
    rewrite (cleanup_run _ p) by done.
    destruct (unlink_error E p) as [e|] eqn:Hun; simpl.
    + eexists. split; [reflexivity |]. simpl. split.
      * apply elem_of_dom. exact Hin.
      * apply last_snoc.
    + unfold in_world, emit. run.
      eexists _, _, _. split; [reflexivity |]. simpl.
      split; [by right |]. rewrite Hfs, delete_insert_eq, delete_id by done. done.
Qed.
End TranscribeFiles.

Lemma transcribe_fetch_error_witness :
  exists e w',
    Whisper.transcribe whisper_env_404 request_url empty_disk
    = (Response (JObj [("success", JBool false); ("error", JStr e)]) 500, w')
    /\ Whisper.fs w' = Whisper.fs empty_disk.
Proof.
  destruct (transcribe_fetch_error whisper_env_404 request_url empty_disk
              [("audio_url", JStr "http://host/a.mp3")]
              (JStr "http://host/a.mp3") response_404 ∅
              eq_refl eq_refl eq_refl eq_refl eq_refl eq_refl)
    as (e & w' & Hrun & Hfs & _).
  { simpl. lia. }
  by exists e, w'.
Defined.

(** C4 as stated fails: status 300 is not a success status, yet the fetch
    does not raise on it.  The page received is written to a temporary
    file and given to the model, and the answer has status 200. *)
Lemma transcribe_status_300_is_200 :
  Whisper.requests_get whisper_env_300 (JStr "http://host/a.mp3")
  = Ok response_300
  /\ Whisper.status_code response_300 = 300%Z
  /\ exists body w',
      Whisper.transcribe whisper_env_300 request_url empty_disk
      = (Response body 200, w')
      /\ Whisper.TempCreate 0%N ∈ Whisper.trace w'
      /\ Whisper.FileWrite 0%N "<html>choices</html>" ∈ Whisper.trace w'
      /\ Whisper.ModelTranscribe 0%N ∈ Whisper.trace w'.
Proof.
  split; [reflexivity |]. split; [reflexivity |].
  eexists _, _. split; [vm_compute; reflexivity |].
  repeat split; apply list_elem_of_In; simpl; tauto.
Qed.

Lemma transcribe_releases_temp_file_witness :
  exists body status w',
    Whisper.transcribe whisper_env_loaded request_upload empty_disk
    = (Response body status, w')
    /\ (status = 200 \/ status = 500)%Z
    /\ Whisper.fs w' = Whisper.fs empty_disk
    /\ Whisper.fs w' !! 0%N = None.
Proof.
  exact (transcribe_releases_temp_file whisper_env_loaded request_upload
           empty_disk _ 0%N _ eq_refl eq_refl eq_refl).
Defined.

(** C1 as stated fails twice.  With no model loaded, an upload is saved
    to a temporary file and the handler returns status 500 with the file
    still there.  With the model loaded and a file that cannot be deleted,
    the successful transcription is not answered at all: the deletion
    error leaves the handler, so the failure does change the response. *)
Lemma transcribe_keeps_temp_file :
  (exists w',
      Whisper.transcribe whisper_env_unloaded request_upload empty_disk
      = (Response (JObj [("error", JStr "Whisper model not loaded")]) 500, w')
      /\ Whisper.TempCreate 0%N ∈ Whisper.trace w'
      /\ Whisper.fs w' !! 0%N = Some "RIFF")
  /\ (exists w',
        Whisper.transcribe whisper_env_locked request_upload empty_disk
        = (Unhandled "[Errno 13] Permission denied", w')
        /\ Whisper.fs w' !! 0%N = Some "RIFF").
Proof.
  split.
  - eexists. split; [vm_compute; reflexivity |]. split; [| reflexivity].
    apply list_elem_of_here.
  - eexists. split; [vm_compute; reflexivity | reflexivity].
Qed.

(** ** The chat server *)

Section ChatPrompt.
Import Chat.

Variable E : env.

Lemma add_message_known (prompt : string) (item : json) (m : string * string)
    (line : string) :
  Spec.reads_as item m -> Spec.prompt_line m = Some line ->
  add_message E prompt item = Ok (prompt +:+ line).
Proof.
  intros (kv & -> & Hrole & Hcontent). unfold Spec.prompt_line, Spec.role_label.
  unfold add_message. simpl. rewrite Hrole, Hcontent. simpl.
  destruct (m.1 =? "system")%string; [by intros [= <-] |].
  destruct (m.1 =? "user")%string; [by intros [= <-] |].
  destruct (m.1 =? "assistant")%string; [by intros [= <-] | done].
Qed.

Lemma add_messages_known (items : list json) (msgs : list (string * string))
    (lines : list string) :
  Forall2 Spec.reads_as items msgs ->
  Forall2 (fun m line => Spec.prompt_line m = Some line) msgs lines ->
  forall prompt, add_messages E prompt items = Ok (prompt +:+ Spec.join lines).
Proof.
  intros Hitems. revert lines.
  induction Hitems as [|item m items msgs Hm _ IH]; intros lines Hlines prompt.
  - inversion Hlines. simpl. by rewrite append_empty_r.
  - inversion Hlines as [|? line ? lines' Hline Hrest]; subst. simpl.
    rewrite (add_message_known prompt item m line Hm Hline). simpl.
    rewrite (IH lines' Hrest). by rewrite append_assoc.
Qed.

Lemma generate_payload_object (dkv : list (string * json)) (prompt : string) :
  exists temperature max_tokens,
    generate_payload E (JObj dkv) prompt
    = Ok (JObj [("model", JStr (OLLAMA_MODEL E));
                ("prompt", JStr prompt);
                ("stream", JBool false);
                ("options", JObj [("temperature", temperature);
                                  ("max_tokens", max_tokens)])]).
Proof. by eexists _, _. Qed.

(** Up to the call of the runtime, the handler has made the probe,
    written one log line and posted the payload. *)
Lemma chat_completions_posts {U} (req : request U) (w : world)
    (data messages payload : json) (prompt : string) :
  get_tags E = Ok 200%Z ->
  get_json req = Ok data -> truthy data = true ->
  py_get data "messages" (JArr []) = Ok messages -> truthy messages = true ->
  build_prompt E messages = Ok prompt ->
  generate_payload E data prompt = Ok payload ->
  PostGenerate payload ∈ (chat_completions E req w).2.
Proof.
  intros Htags Hdata Htd Hmsgs Htm Hprompt Hpay.
  unfold chat_completions, chat_completions_try, chat_completions_except,
    check_ollama_running, emit.
  run. rewrite Htags. simpl. rewrite Hdata. simpl. rewrite Htd. simpl.
  rewrite Hmsgs. simpl. rewrite Htm. simpl. rewrite Hprompt. simpl.
  rewrite Hpay. simpl.
  destruct (post_generate E payload) as [reply|e]; simpl.
  2: { rewrite !elem_of_app, !list_elem_of_singleton. auto. }
  destruct (negb (status_code reply =? 200)%Z); simpl.
  { rewrite !elem_of_app, !list_elem_of_singleton. auto. }
  destruct (json_body reply) as [oresp|e]; simpl.
  2: { rewrite !elem_of_app, !list_elem_of_singleton. auto. }
  destruct (py_get oresp "response" (JStr "")) as [gen|e]; simpl.
  2: { rewrite !elem_of_app, !list_elem_of_singleton. auto. }
  destruct (completion_body E prompt gen) as [body|e]; simpl;
    rewrite !elem_of_app, !list_elem_of_singleton; auto.
Qed.


(** C2. For a non-empty array of messages, each an object carrying a role
    among system, user and assistant and a text, the prompt is the lines
    of the messages in input order, each the label of the role, the
    content and a line feed, followed by the cue ["Assistant: "]; and this
    is the prompt the handler posts to the runtime. *)
Theorem chat_prompt_flattening
    (items : list json) (msgs : list (string * string)) (lines : list string) :
  items <> [] ->
  Forall2 Spec.reads_as items msgs ->
  Forall2 (fun m line => Spec.prompt_line m = Some line) msgs lines ->
  build_prompt E (JArr items) = Ok (Spec.join lines +:+ "Assistant: ")
  /\ forall U (req : request U) (w : world) (dkv : list (string * json)),
      get_tags E = Ok 200%Z ->
      get_json req = Ok (JObj dkv) ->
      assoc "messages" dkv = Some (JArr items) ->
      exists payload,
        PostGenerate payload ∈ (chat_completions E req w).2
        /\ Spec.at_path payload ["prompt"]
           = Some (JStr (Spec.join lines +:+ "Assistant: ")).
Proof.
  intros Hne Hitems Hlines.
  assert (build_prompt E (JArr items) = Ok (Spec.join lines +:+ "Assistant: "))
    as Hprompt.
  { unfold build_prompt. simpl.
    by rewrite (add_messages_known items msgs lines Hitems Hlines ""). }
  split; [exact Hprompt |].
  intros U req w dkv Htags Hdata Hmsgs.
  destruct (generate_payload_object dkv (Spec.join lines +:+ "Assistant: "))
    as (t & m & Hpay).
  eexists. split.
  - eapply (chat_completions_posts req w (JObj dkv) (JArr items) _ _ Htags Hdata);
      [by eapply assoc_truthy | simpl; by rewrite Hmsgs | by destruct items
      | exact Hprompt | exact Hpay].
  - reflexivity.
Qed.

Lemma add_message_unknown (prompt : string) (kv : list (string * json))
    (role : json) :
  assoc "role" kv = Some role ->
  role <> JStr "system" -> role <> JStr "user" -> role <> JStr "assistant" ->
  add_message E prompt (JObj kv) = Ok prompt.
Proof.
  intros Hrole Hs Hu Ha. unfold add_message. simpl. rewrite Hrole. simpl.
  assert (forall s, role <> JStr s -> is_str s role = false) as Hno.
  { intros s Hne. destruct role; simpl; try done.
    apply String.eqb_neq. congruence. }
  by rewrite (Hno _ Hs), (Hno _ Hu), (Hno _ Ha).
Qed.

Lemma add_messages_app (l1 l2 : list json) (prompt : string) :
  add_messages E prompt (l1 ++ l2)
  = match add_messages E prompt l1 with
    | Ok prompt' => add_messages E prompt' l2
    | Raise e => Raise e
    end.
Proof.
  revert prompt. induction l1 as [|x l1 IH]; intros prompt; simpl; [done |].
  destruct (add_message E prompt x) as [prompt'|e]; simpl; [apply IH | done].
Qed.

Lemma build_prompt_middle (l1 l2 : list json) (x y : json) :
  (forall prompt, add_message E prompt x = add_message E prompt y) ->
  build_prompt E (JArr (l1 ++ x :: l2)) = build_prompt E (JArr (l1 ++ y :: l2)).
Proof.
  intros Hxy. unfold build_prompt. simpl. rewrite !add_messages_app.
  destruct (add_messages E "" l1) as [prompt|e]; simpl; [| done].
  by rewrite Hxy.
Qed.

Lemma build_prompt_skip (l1 l2 : list json) (x : json) :
  (forall prompt, add_message E prompt x = Ok prompt) ->
  build_prompt E (JArr (l1 ++ x :: l2)) = build_prompt E (JArr (l1 ++ l2)).
Proof.
  intros Hx. unfold build_prompt. simpl. rewrite !add_messages_app.
  destruct (add_messages E "" l1) as [prompt|e]; simpl; [| done].
  by rewrite Hx.
Qed.

(** What the handler answers when the runtime replies with status 200
    and a text. *)
Lemma chat_completions_success {U} (req : request U) (w : world)
    (data messages payload oresp : json) (prompt gen : string)
    (reply : http_reply) :
  get_tags E = Ok 200%Z ->
  get_json req = Ok data -> truthy data = true ->
  py_get data "messages" (JArr []) = Ok messages -> truthy messages = true ->
  build_prompt E messages = Ok prompt ->
  generate_payload E data prompt = Ok payload ->
  post_generate E payload = Ok reply ->
  status_code reply = 200%Z ->
  json_body reply = Ok oresp ->
  py_get oresp "response" (JStr "") = Ok (JStr gen) ->
  exists body,
    completion_body E prompt (JStr gen) = Ok body
    /\ chat_completions E req w
       = (Response body 200,
          (((w ++ [GetTags])
              ++ [LogInfo [JStr "Generating response for prompt of length ";
                           JInt (Z.of_nat (String.length prompt))]])
             ++ [PostGenerate payload])%list).
Proof.
  intros Htags Hdata Htd Hmsgs Htm Hprompt Hpay Hpost Hstatus Hjson Hgen.
  eexists. split; [reflexivity |].
  unfold chat_completions, chat_completions_try, check_ollama_running, emit.
  run. rewrite Htags. simpl. rewrite Hdata. simpl. rewrite Htd. simpl.
  rewrite Hmsgs. simpl. rewrite Htm. simpl. rewrite Hprompt. simpl.
  rewrite Hpay. simpl. rewrite Hpost. simpl. rewrite Hstatus. simpl.
  rewrite Hjson. simpl. rewrite Hgen. reflexivity.
Qed.

(** C10. A message without a [role] is flattened exactly as the same
    message with role [user], under the label ["Human: "].  A message
    whose role is any value other than the three known ones leaves the
    prompt as if it were not in the array.  Such a message does not make
    the request fail: when the runtime answers the prompt of the other
    messages with status 200 and a text, the handler answers 200. *)
Theorem chat_role_absent_or_unknown :
  (forall (l1 l2 : list json) (kv : list (string * json)) (prompt : string),
      assoc "role" kv = None ->
      build_prompt E (JArr (l1 ++ JObj kv :: l2))
      = build_prompt E (JArr (l1 ++ JObj (("role", JStr "user") :: kv) :: l2))
      /\ add_message E prompt (JObj kv)
         = Ok (prompt +:+ ("Human: "
                 +:+ py_str (str_other E) (default (JStr "") (assoc "content" kv))
                 +:+ nl)))
  /\ (forall (l1 l2 : list json) (kv : list (string * json)) (role : json),
        assoc "role" kv = Some role ->
        role <> JStr "system" -> role <> JStr "user" -> role <> JStr "assistant" ->
        build_prompt E (JArr (l1 ++ JObj kv :: l2))
        = build_prompt E (JArr (l1 ++ l2))
        /\ forall U (req : request U) (w : world) (dkv okv : list (string * json))
             (prompt gen : string) (payload : json) (reply : http_reply),
            get_tags E = Ok 200%Z ->
            get_json req = Ok (JObj dkv) ->
            assoc "messages" dkv = Some (JArr (l1 ++ JObj kv :: l2)) ->
            build_prompt E (JArr (l1 ++ l2)) = Ok prompt ->
            generate_payload E (JObj dkv) prompt = Ok payload ->
            post_generate E payload = Ok reply ->
            status_code reply = 200%Z ->
            json_body reply = Ok (JObj okv) ->
            default (JStr "") (assoc "response" okv) = JStr gen ->
            exists body w',
              chat_completions E req w = (Response body 200, w')
              /\ PostGenerate payload ∈ w').
Proof.
  split.
  - intros l1 l2 kv prompt Hrole. split.
    + apply build_prompt_middle. intros p. unfold add_message. simpl.
      by rewrite Hrole.
    + unfold add_message. simpl. by rewrite Hrole.
  - intros l1 l2 kv role Hrole Hs Hu Ha.
    assert (build_prompt E (JArr (l1 ++ JObj kv :: l2))
            = build_prompt E (JArr (l1 ++ l2))) as Hskip.
    { apply build_prompt_skip. intros p. by eapply add_message_unknown. }
    split; [exact Hskip |].
    intros U req w dkv okv prompt gen payload reply
      Htags Hdata Hmsgs Hprompt Hpay Hpost Hstatus Hjson Hgen.
    destruct (chat_completions_success req w (JObj dkv)
                (JArr (l1 ++ JObj kv :: l2)) payload (JObj okv) prompt gen reply)
      as (body & _ & Hrun); try done.
    + by eapply assoc_truthy.
    + simpl. by rewrite Hmsgs.
    + by destruct l1.
    + by rewrite Hskip.
    + simpl. by rewrite Hgen.
    + eexists _, _. split; [exact Hrun |].
      rewrite !elem_of_app, !list_elem_of_singleton. auto.
Qed.


(** A response with status 200 can only come from the last [return]. *)
Lemma chat_completions_200_inv {U} (req : request U) (w w' : world) (body : json) :
  chat_completions E req w = (Response body 200, w') ->
  exists data messages prompt payload reply oresp gen,
    get_json req = Ok data
    /\ py_get data "messages" (JArr []) = Ok messages
    /\ build_prompt E messages = Ok prompt
    /\ generate_payload E data prompt = Ok payload
    /\ post_generate E payload = Ok reply
    /\ json_body reply = Ok oresp
    /\ py_get oresp "response" (JStr "") = Ok (JStr gen)
    /\ completion_body E prompt (JStr gen) = Ok body
    /\ PostGenerate payload ∈ w'.
Proof.
  unfold chat_completions, chat_completions_try, chat_completions_except,
    check_ollama_running, emit.
  run.
  destruct (match get_tags E with Ok code => (code =? 200)%Z | Raise _ => false end);
    simpl; [| done].
  destruct (get_json req) as [data|] eqn:Hdata; simpl; [| done].
  destruct (truthy data); simpl; [| done].
  destruct (py_get data "messages" (JArr [])) as [messages|] eqn:Hmsgs;
    simpl; [| done].
  destruct (truthy messages); simpl; [| done].
  destruct (build_prompt E messages) as [prompt|] eqn:Hprompt; simpl; [| done].
  destruct (generate_payload E data prompt) as [payload|] eqn:Hpay;
    simpl; [| done].
  destruct (post_generate E payload) as [reply|] eqn:Hpost; simpl; [| done].
  destruct (negb (status_code reply =? 200)%Z); simpl; [done |].
  destruct (json_body reply) as [oresp|] eqn:Hjson; simpl; [| done].
  destruct (py_get oresp "response" (JStr "")) as [gen|] eqn:Hgen;
    simpl; [| done].
  destruct (completion_body E prompt gen) as [body'|] eqn:Hbody; simpl; [| done].
  intros [= <- <-].
  destruct gen as [| | | |gen| |];
    try (unfold completion_body, word_count in Hbody; simpl in Hbody;
         discriminate Hbody).
  exists data, messages, prompt, payload, reply, oresp, gen.
  repeat (split; [done |]).
  rewrite !elem_of_app, !list_elem_of_singleton. auto.
Qed.

(** C9. A response with status 200 carries one choice, with role
    [assistant], the generated text and finish reason [stop]; its
    [prompt_tokens] is the number of whitespace-separated words of the
    flattened prompt, its [completion_tokens] that of the generated text,
    and its [total_tokens] their sum. *)
Theorem chat_completion_usage {U} (req : request U) (w w' : world) (body : json) :
  chat_completions E req w = (Response body 200, w') ->
  exists data messages prompt payload reply oresp gen,
    (get_json req = Ok data
     /\ py_get data "messages" (JArr []) = Ok messages
     /\ build_prompt E messages = Ok prompt)
    /\ (PostGenerate payload ∈ w'
        /\ post_generate E payload = Ok reply
        /\ json_body reply = Ok oresp
        /\ py_get oresp "response" (JStr "") = Ok (JStr gen))
    /\ Spec.at_path body ["choices"]
       = Some (JArr [JObj [("message", JObj [("role", JStr "assistant");
                                             ("content", JStr gen)]);
                           ("finish_reason", JStr "stop")]])
    /\ Spec.at_path body ["usage"; "prompt_tokens"]
       = Some (JInt (Z.of_nat (Spec.count_words prompt)))
    /\ Spec.at_path body ["usage"; "completion_tokens"]
       = Some (JInt (Z.of_nat (Spec.count_words gen)))
    /\ Spec.at_path body ["usage"; "total_tokens"]
       = Some (JInt (Z.of_nat (Spec.count_words prompt)
                     + Z.of_nat (Spec.count_words gen))).
Proof.
  intros Hrun.
  destruct (chat_completions_200_inv req w w' body Hrun)
    as (data & messages & prompt & payload & reply & oresp & gen
        & Hdata & Hmsgs & Hprompt & Hpay & Hpost & Hjson & Hgen & Hbody & Hin).
  exists data, messages, prompt, payload, reply, oresp, gen.
  split; [done |]. split; [done |].
  unfold completion_body, word_count in Hbody. simpl in Hbody.
  injection Hbody as <-. rewrite !length_split. done.
Qed.

End ChatPrompt.

Lemma chat_prompt_flattening_witness :
  Chat.build_prompt chat_env (JArr [message_system; message_user])
  = Ok (Spec.join ["System: Be brief." +:+ nl; "Human: hi" +:+ nl]
        +:+ "Assistant: ").
Proof.
  refine (proj1 (chat_prompt_flattening chat_env [message_system; message_user]
                   [("system", "Be brief."); ("user", "hi")]
                   ["System: Be brief." +:+ nl; "Human: hi" +:+ nl] _ _ _)).
  - done.
  - repeat constructor; eexists; repeat split; reflexivity.
  - repeat constructor.
Defined.

Lemma chat_completion_usage_witness :
  exists body w' prompt gen,
    Chat.chat_completions chat_env chat_request [] = (Response body 200, w')
    /\ Spec.at_path body ["usage"; "total_tokens"]
       = Some (JInt (Z.of_nat (Spec.count_words prompt)
                     + Z.of_nat (Spec.count_words gen))).
Proof.
  destruct (Chat.chat_completions chat_env chat_request []) as [out w'] eqn:Hrun.
  assert (exists body, out = Response body 200) as [body ->].
  { vm_compute in Hrun. injection Hrun as <- _. by eexists. }
  destruct (chat_completion_usage chat_env chat_request [] w' body Hrun)
    as (_ & _ & prompt & _ & _ & _ & gen & _ & _ & _ & _ & _ & Htotal).
  by exists body, w', prompt, gen.
Defined.

Lemma chat_role_absent_or_unknown_witness :
  Chat.build_prompt chat_env (JArr [message_no_role])
  = Chat.build_prompt chat_env (JArr [message_user])
  /\ Chat.build_prompt chat_env (JArr [message_tool; message_user])
     = Chat.build_prompt chat_env (JArr [message_user]).
Proof.
  destruct (chat_role_absent_or_unknown chat_env) as [Habsent Hunknown].
  split.
  - exact (proj1 (Habsent [] [] [("content", JStr "hi")] "" eq_refl)).
  - refine (proj1 (Hunknown [] [message_user]
                     [("role", JStr "tool"); ("content", JStr "42")]
                     (JStr "tool") eq_refl _ _ _)); done.
Defined.

(** ** The embedding server *)

(** The same without [simpl], which would also unfold the tests on the
    request body. *)
Ltac step :=
  unfold try_except, zoom, lift_result, raise, get, modify;
  unfold mbind, M_bind, result_bind, bind, mret, M_ret, result_ret, ret;
  cbv beta iota.

Section Embeddings.
Import Embedding.

Variable E : env.

(** The comprehension keeps the texts that are not blank, in order. *)
Lemma valid_texts_strings (ts : list string) :
  valid_texts (JStr <$> ts)
  = Ok (List.filter (fun s => negb (Spec.blank s)) ts).
Proof.
  induction ts as [|s ts IH]; [done |].
  change (JStr <$> s :: ts) with (JStr s :: (JStr <$> ts)).
  unfold valid_texts; fold valid_texts. rewrite IH. simpl.
  destruct s as [|c s]; [done |].
  simpl truthy. cbv iota. unfold py_strip. run.
  rewrite strip_empty_iff_blank. reflexivity.
Qed.

Lemma filter_complement_length {A} (f : A -> bool) (l : list A) :
  length (List.filter (fun x => negb (f x)) l)
  = length l - length (List.filter f l).
Proof.
  induction l as [|x l IH]; [done |]. simpl.
  pose proof (List.filter_length_le f l).
  destruct (f x); simpl; lia.
Qed.


(** C3. With the model loaded and a body whose [texts] holds a value:
    a value that is not a list, or the empty list, is rejected with
    status 400.  For a list of [N] texts of which [k] are empty or
    whitespace-only, [N - k] texts survive; if [k = N] the call is
    rejected with status 400; otherwise the survivors are encoded in one
    call, in their input order, and when the encoder returns one row for
    each of them, the answer has status 200, its [embeddings] are the
    encoder's rows in the encoder's order, and its [count] is [N - k]. *)
Theorem batch_embeddings_count {U} (req : request U) (w : world)
    (enc : list string -> result (list vector))
    (dkv : list (string * json)) (texts : json) :
  embedding_model E = Some enc ->
  get_json req = Ok (JObj dkv) ->
  assoc "texts" dkv = Some texts ->
  ((forall l, texts <> JArr l) \/ texts = JArr [] ->
   create_batch_embeddings E req w
   = (Response (JObj [("error", JStr "Invalid texts array")]) 400, w))
  /\ forall ts : list string,
      texts = JArr (JStr <$> ts) ->
      let survivors := List.filter (fun s => negb (Spec.blank s)) ts in
      let N := length ts in
      let k := length (List.filter Spec.blank ts) in
      length survivors = N - k
      /\ (k = N ->
          exists msg,
            create_batch_embeddings E req w
            = (Response (JObj [("error", JStr msg)]) 400, w))
      /\ (k < N ->
          forall rows,
            enc survivors = Ok rows ->
            length rows = length survivors ->
            exists body w',
              create_batch_embeddings E req w = (Response body 200, w')
              /\ Encode survivors ∈ w'
              /\ Spec.at_path body ["embeddings"]
                 = Some (JArr (json_of_vector <$> rows))
              /\ Spec.at_path body ["count"]
                 = Some (JInt (Z.of_nat (N - k)))).
Proof.
  intros Hmodel Hdata Htexts.
  assert (lacks (JObj dkv) "texts" = Ok false) as Hlacks.
  { unfold lacks. rewrite (assoc_truthy _ _ _ Htexts). simpl. by rewrite Htexts. }
  assert (py_getitem (JObj dkv) "texts" = Ok texts) as Hget.
  { simpl. by rewrite Htexts. }
  split.
  - intros Hbad.
    unfold create_batch_embeddings, create_batch_embeddings_try.
    rewrite Hmodel, Hdata. step. rewrite Hlacks. step. rewrite Hget. step.
    destruct Hbad as [Hnl | ->]; [| done].
    destruct texts as [| | | | |l|]; try done. by destruct (Hnl l).
  - intros ts -> survivors N k.
    assert (length survivors = N - k) as Hlen
        by apply filter_complement_length.
    split; [exact Hlen |].
    unfold create_batch_embeddings, create_batch_embeddings_try.
    rewrite Hmodel, Hdata. step. rewrite Hlacks. step. rewrite Hget. step.
    split.
    + intros Hk. destruct ts as [|t ts]; [by eexists |].
      change (JStr <$> t :: ts) with (JStr t :: (JStr <$> ts)). cbv iota.
      change (JStr t :: (JStr <$> ts)) with (JStr <$> t :: ts).
      rewrite valid_texts_strings. fold survivors.
      replace (length survivors =? 0)%nat with true by (symmetry; apply Nat.eqb_eq; lia).
      by eexists.
    + intros Hk rows Henc Hrows. destruct ts as [|t ts]; [simpl in *; lia |].
      change (JStr <$> t :: ts) with (JStr t :: (JStr <$> ts)). cbv iota.
      change (JStr t :: (JStr <$> ts)) with (JStr <$> t :: ts).
      rewrite valid_texts_strings. fold survivors.
      replace (length survivors =? 0)%nat with false by (symmetry; apply Nat.eqb_neq; lia).
      unfold encode, emit. run. rewrite Hmodel. simpl. rewrite Henc. simpl.
      eexists _, _. split; [reflexivity |]. split.
      * rewrite !elem_of_app, !list_elem_of_singleton. auto.
      * split; [done |]. simpl. rewrite length_fmap. by rewrite Hrows, Hlen.
Qed.


Lemma lacks_either_missing (data : json) :
  truthy data = false
  \/ (exists dkv, data = JObj dkv
                  /\ (assoc "text1" dkv = None \/ assoc "text2" dkv = None)) ->
  lacks_either data = Ok true.
Proof.
  unfold lacks_either, lacks. intros [-> | (dkv & -> & Hmiss)]; [done |].
  destruct (truthy (JObj dkv)); [| done]. simpl.
  destruct (assoc "text1" dkv); simpl; [| done].
  destruct Hmiss as [? | ->]; done.
Qed.

Lemma lacks_either_present (dkv : list (string * json)) (v1 v2 : json) :
  assoc "text1" dkv = Some v1 -> assoc "text2" dkv = Some v2 ->
  lacks_either (JObj dkv) = Ok false.
Proof.
  intros H1 H2. unfold lacks_either, lacks.
  rewrite (assoc_truthy _ _ _ H1). simpl. by rewrite H1, H2.
Qed.

Lemma either_blank_strings (t1 t2 : string) :
  either_blank (JStr t1) (JStr t2) = Ok (Spec.blank t1 || Spec.blank t2).
Proof.
  unfold either_blank. simpl. rewrite !strip_empty_iff_blank.
  by destruct (Spec.blank t1).
Qed.

Lemma lacks_raising (data : json) (k : string) :
  Spec.true_scalar data -> exists e, lacks data k = Raise e.
Proof.
  unfold lacks.
  destruct data as [|b|z|f|s|l|kv]; simpl; try done; intros ->; simpl; eauto.
Qed.

Lemma py_strip_raising (v : json) :
  Spec.not_text v -> py_strip v = Raise (attribute_error v "strip").
Proof. destruct v as [|b|z|f|s|l|kv]; try done. intros H. by destruct (H s). Qed.

(** The run of the handler on two texts that are not blank. *)
Lemma compute_similarity_run {U} (req : request U) (w : world)
    (enc : list string -> result (list vector)) (dkv : list (string * json))
    (t1 t2 : string) (e0 e1 : vector) (rest : list vector) :
  embedding_model E = Some enc ->
  get_json req = Ok (JObj dkv) ->
  assoc "text1" dkv = Some (JStr t1) ->
  assoc "text2" dkv = Some (JStr t2) ->
  Spec.blank t1 = false ->
  Spec.blank t2 = false ->
  enc [t1; t2] = Ok (e0 :: e1 :: rest) ->
  compute_similarity E req w
  = (Response (JObj [("success", JBool true);
                     ("similarity", JFloat (cosine (np E) e0 e1));
                     ("model", JStr (MODEL_NAME E))]) 200,
     (w ++ [LogInfo [JStr "Computing similarity between two texts"];
            Encode [t1; t2]])%list).
Proof.
  intros Hmodel Hdata H1 H2 Hb1 Hb2 Henc.
  assert (py_getitem (JObj dkv) "text1" = Ok (JStr t1)) as Hg1
      by (simpl; by rewrite H1).
  assert (py_getitem (JObj dkv) "text2" = Ok (JStr t2)) as Hg2
      by (simpl; by rewrite H2).
  unfold compute_similarity, compute_similarity_try.
  rewrite Hmodel, Hdata. step.
  rewrite (lacks_either_present dkv _ _ H1 H2). step.
  rewrite Hg1. step. rewrite Hg2. step. rewrite either_blank_strings.
  rewrite Hb1, Hb2. unfold encode, emit. run.
  rewrite Hmodel. simpl. rewrite Henc. simpl. by rewrite <- !app_assoc.
Qed.

(** C5, as the code has it.  With the model loaded: a body that counts
    as false, or an object that lacks [text1] or [text2], is rejected with
    status 400; so are two texts of which one is empty or whitespace-only.
    For two texts that are not, the answer has status 200 and its
    [similarity] is the dot product of the two rows the encoder returns,
    divided by the product of their norms.  A body that does not parse or
    is a true number or boolean, a [text1] that is not a string, and a
    [text2] that is not a string after a [text1] that is not blank, are not
    rejected with 400: the handler raises on them and answers 500. *)
Theorem similarity_contract {U} (req : request U) (w : world)
    (enc : list string -> result (list vector)) :
  embedding_model E = Some enc ->
  (forall data,
      get_json req = Ok data ->
      truthy data = false
      \/ (exists dkv, data = JObj dkv
                      /\ (assoc "text1" dkv = None \/ assoc "text2" dkv = None)) ->
      compute_similarity E req w
      = (Response (JObj [("error", JStr "Both text1 and text2 required")]) 400, w))
  /\ (forall dkv t1 t2,
        get_json req = Ok (JObj dkv) ->
        assoc "text1" dkv = Some (JStr t1) ->
        assoc "text2" dkv = Some (JStr t2) ->
        (Spec.blank t1 = true \/ Spec.blank t2 = true ->
         compute_similarity E req w
         = (Response (JObj [("error", JStr "Empty texts provided")]) 400, w))
        /\ (Spec.blank t1 = false -> Spec.blank t2 = false ->
            forall e0 e1 rest,
              enc [t1; t2] = Ok (e0 :: e1 :: rest) ->
              exists w',
                compute_similarity E req w
                = (Response
                     (JObj [("success", JBool true);
                            ("similarity",
                             JFloat (np_true_divide (np E)
                                       (np_dot (np E) e0 e1)
                                       (np_multiply (np E)
                                          (np_linalg_norm (np E) e0)
                                          (np_linalg_norm (np E) e1))));
                            ("model", JStr (MODEL_NAME E))]) 200, w')
                /\ Encode [t1; t2] ∈ w'))
  /\ ((exists e, get_json req = Raise e)
      \/ (exists data, get_json req = Ok data /\ Spec.true_scalar data)
      \/ (exists dkv v1 v2,
            get_json req = Ok (JObj dkv)
            /\ assoc "text1" dkv = Some v1
            /\ assoc "text2" dkv = Some v2
            /\ (Spec.not_text v1
                \/ (exists t1, v1 = JStr t1 /\ Spec.blank t1 = false
                               /\ Spec.not_text v2))) ->
      exists e,
        compute_similarity E req w
        = (Response (JObj [("success", JBool false); ("error", JStr e)]) 500,
           (w ++ [LogError [JStr "Similarity computation failed: ";
                            JStr e]])%list)).
Proof.
  intros Hmodel. split; [| split].
  3: { unfold compute_similarity, compute_similarity_try,
         compute_similarity_except, emit.
       rewrite Hmodel.
       intros [(e & Hdata) | [(data & Hdata & Hscalar)
                             | (dkv & v1 & v2 & Hdata & H1 & H2 & Hbad)]];
         rewrite Hdata; step.
       - by exists e.
       - destruct (lacks_raising data "text1" Hscalar) as [e He].
         exists e. unfold lacks_either. rewrite He. by step.
       - rewrite (lacks_either_present dkv _ _ H1 H2). step.
         assert (py_getitem (JObj dkv) "text1" = Ok v1) as ->
             by (simpl; by rewrite H1).
         step.
         assert (py_getitem (JObj dkv) "text2" = Ok v2) as ->
             by (simpl; by rewrite H2).
         step. unfold either_blank.
         destruct Hbad as [Hv1 | (t1 & -> & Hb1 & Hv2)].
         + rewrite (py_strip_raising v1 Hv1). step. by eexists.
         + rewrite (py_strip_raising v2 Hv2).
           change (py_strip (JStr t1)) with (Ok (strip t1) : result string).
           step. rewrite strip_empty_iff_blank, Hb1. step. by eexists. }
  - intros data Hdata Hmiss.
    unfold compute_similarity, compute_similarity_try.
    rewrite Hmodel, Hdata. step. rewrite (lacks_either_missing data Hmiss).
    by step.
  - intros dkv t1 t2 Hdata H1 H2.
    assert (py_getitem (JObj dkv) "text1" = Ok (JStr t1)) as Hg1
        by (simpl; by rewrite H1).
    assert (py_getitem (JObj dkv) "text2" = Ok (JStr t2)) as Hg2
        by (simpl; by rewrite H2).
    split.
    + intros Hblank.
      unfold compute_similarity, compute_similarity_try.
      rewrite Hmodel, Hdata. step.
      rewrite (lacks_either_present dkv _ _ H1 H2). step.
      rewrite Hg1. step. rewrite Hg2. step. rewrite either_blank_strings.
      by destruct Hblank as [-> | ->]; rewrite ?orb_true_r.
    + intros Hb1 Hb2 e0 e1 rest Henc.
      rewrite (compute_similarity_run req w enc dkv t1 t2 e0 e1 rest) by done.
      eexists. split; [reflexivity |].
      rewrite elem_of_app, !list_elem_of_In. simpl. tauto.
Qed.

Lemma close_bounds (eps x y : R) :
  (0 <= eps)%R -> (0 < y)%R -> Spec.close eps x y ->
  ((1 - eps) * y <= x <= (1 + eps) * y)%R.
Proof.
  unfold Spec.close. intros He Hy H. rewrite (Rabs_pos_eq y) in H by lra.
  pose proof (Rle_abs (x - y)) as Hup.
  pose proof (Rle_abs (- (x - y))) as Hlo. rewrite Rabs_Ropp in Hlo. lra.
Qed.

(** The error analysis of the formula on a row against itself: [d]
    approximates the exact inner product [D], [r] its root, [m] the
    square of [r] and [s] the quotient of [d] by [m]. *)
Lemma cosine_self_tolerance (eps D d r m s : R) :
  (0 <= eps <= 1 / 100)%R ->
  (0 < D)%R ->
  Spec.close eps d D ->
  Spec.close eps r (R_sqrt.sqrt D) ->
  Spec.close eps m (r * r) ->
  Spec.close eps s (d / m) ->
  (Rabs (s - 1) <= 6 * eps)%R.
Proof.
  intros [He0 He1] HD Hd Hr Hm Hs.
  assert (0 < R_sqrt.sqrt D)%R as Hn by (apply sqrt_lt_R0; lra).
  assert (R_sqrt.sqrt D * R_sqrt.sqrt D = D)%R as Hnn by (apply sqrt_sqrt; lra).
  set (n := R_sqrt.sqrt D) in *.
  set (lo := (1 - eps)%R). set (hi := (1 + eps)%R).
  assert (99 / 100 <= lo <= 1)%R as Hlo by (unfold lo; lra).
  assert (1 <= hi <= 101 / 100)%R as Hhi by (unfold hi; lra).
  apply close_bounds in Hd; [| lra | lra].
  apply close_bounds in Hr; [| lra | lra].
  fold lo hi in Hd, Hr.
  assert (0 < lo * n)%R as Hlon by (apply Rmult_lt_0_compat; lra).
  assert (0 < r)%R as Hrpos by lra.
  assert (0 < r * r)%R as Hrr by (apply Rmult_lt_0_compat; lra).
  apply close_bounds in Hm; [| lra | lra].
  fold lo hi in Hm.
  assert ((lo * n) * (lo * n) <= r * r)%R as Hrr_lo
      by (apply Rmult_le_compat; lra).
  assert (r * r <= (hi * n) * (hi * n))%R as Hrr_hi
      by (apply Rmult_le_compat; lra).
  replace ((lo * n) * (lo * n))%R with (lo * lo * D)%R in Hrr_lo
      by (rewrite <- Hnn; ring).
  replace ((hi * n) * (hi * n))%R with (hi * hi * D)%R in Hrr_hi
      by (rewrite <- Hnn; ring).
  assert (0 < lo * lo * D)%R as Hll
      by (repeat apply Rmult_lt_0_compat; lra).
  assert (lo * (lo * lo * D) <= m)%R as Hm_lo.
  { apply Rle_trans with (lo * (r * r))%R; [| lra].
    apply Rmult_le_compat_l; lra. }
  assert (m <= hi * (hi * hi * D))%R as Hm_hi.
  { apply Rle_trans with (hi * (r * r))%R; [lra |].
    apply Rmult_le_compat_l; lra. }
  assert (0 < lo * (lo * lo * D))%R as Hlll
      by (apply Rmult_lt_0_compat; lra).
  assert (0 < m)%R as Hmpos by lra.
  assert (0 < d)%R as Hdpos.
  { apply Rlt_le_trans with (lo * D)%R; [apply Rmult_lt_0_compat; lra | lra]. }
  assert (0 < d / m)%R as Hq by (apply Rdiv_lt_0_compat; lra).
  apply close_bounds in Hs; [| lra | lra].
  fold lo hi in Hs.
  assert (d / m * m = d)%R as Hqm by (field; lra).
  set (q := (d / m)%R) in *.
  assert (q * (lo * (lo * lo * D)) <= hi * D)%R as Hq_hi.
  { apply Rle_trans with (q * m)%R; [apply Rmult_le_compat_l; lra | lra]. }
  assert (lo * D <= q * (hi * (hi * hi * D)))%R as Hq_lo.
  { apply Rle_trans with (q * m)%R; [lra | apply Rmult_le_compat_l; lra]. }
  assert (q * (lo * lo * lo) <= hi)%R as Hq_hi'.
  { apply Rmult_le_reg_r with D; [lra |].
    replace (q * (lo * lo * lo) * D)%R with (q * (lo * (lo * lo * D)))%R by ring.
    lra. }
  assert (lo <= q * (hi * hi * hi))%R as Hq_lo'.
  { apply Rmult_le_reg_r with D; [lra |].
    replace (q * (hi * hi * hi) * D)%R with (q * (hi * (hi * hi * D)))%R by ring.
    lra. }
  assert (0 < lo * lo * lo)%R as Hl3 by (repeat apply Rmult_lt_0_compat; lra).
  assert (0 < hi * hi * hi)%R as Hh3 by (repeat apply Rmult_lt_0_compat; lra).
  assert (s * (lo * lo * lo) <= hi * hi)%R as Hs_hi.
  { apply Rle_trans with (hi * q * (lo * lo * lo))%R.
    - apply Rmult_le_compat_r; lra.
    - replace (hi * q * (lo * lo * lo))%R with (hi * (q * (lo * lo * lo)))%R by ring.
      apply Rmult_le_compat_l; lra. }
  assert (lo * lo <= s * (hi * hi * hi))%R as Hs_lo.
  { apply Rle_trans with (lo * q * (hi * hi * hi))%R.
    - replace (lo * q * (hi * hi * hi))%R with (lo * (q * (hi * hi * hi)))%R by ring.
      apply Rmult_le_compat_l; lra.
    - apply Rmult_le_compat_r; lra. }
  assert (hi * hi <= (1 + 6 * eps) * (lo * lo * lo))%R as Hpoly_hi
      by (unfold lo, hi; nra).
  assert ((1 - 6 * eps) * (hi * hi * hi) <= lo * lo)%R as Hpoly_lo
      by (unfold lo, hi; nra).
  apply Rabs_le. split.
  - assert ((1 - 6 * eps) * (hi * hi * hi) <= s * (hi * hi * hi))%R as H by lra.
    apply Rmult_le_reg_r in H; lra.
  - assert (s * (lo * lo * lo) <= (1 + 6 * eps) * (lo * lo * lo))%R as H by lra.
    apply Rmult_le_reg_r in H; lra.
Qed.

Lemma dot_self_nonneg (a : list R) : (0 <= Spec.dot a a)%R.
Proof.
  induction a as [|x a IH]; simpl; [lra |].
  pose proof (Rle_0_sqr x) as Hx. unfold Rsqr in Hx. lra.
Qed.

Lemma dot_self_pos (a : list R) :
  (exists x, x ∈ a /\ x <> 0%R) -> (0 < Spec.dot a a)%R.
Proof.
  intros (x & Hin & Hx). induction a as [|y a IH]; [by apply elem_of_nil in Hin |].
  simpl. pose proof (dot_self_nonneg a) as Ha.
  pose proof (Rle_0_sqr y) as Hy. unfold Rsqr in Hy.
  apply elem_of_cons in Hin as [<- | Hin].
  - assert (0 < x * x)%R; [| lra].
    destruct (Rtotal_order x 0) as [Hneg | [Hzero | Hpos]]; [| done |].
    + replace (x * x)%R with ((- x) * (- x))%R by ring.
      apply Rmult_lt_0_compat; lra.
    + apply Rmult_lt_0_compat; lra.
  - specialize (IH Hin). lra.
Qed.

(** C6, as the code has it.  Take a text that is not blank, given as both
    [text1] and [text2], for which the encoder returns the same row twice,
    a row with an entry that is not zero.  If numpy's operations are
    accurate on that row to a relative error [eps] of at most one
    hundredth, the answer has status 200 and its [similarity] is a number
    within [6 * eps] of 1; with [eps] zero, that is in exact arithmetic,
    it is 1. *)
Theorem similarity_with_itself {U} (req : request U) (w : world)
    (enc : list string -> result (list vector)) (dkv : list (string * json))
    (t : string) (e : vector) (rest : list vector) (eps : R) :
  embedding_model E = Some enc ->
  get_json req = Ok (JObj dkv) ->
  assoc "text1" dkv = Some (JStr t) ->
  assoc "text2" dkv = Some (JStr t) ->
  Spec.blank t = false ->
  enc [t; t] = Ok (e :: e :: rest) ->
  (exists x, x ∈ e /\ Spec.real_of x <> 0%R) ->
  (0 <= eps <= 1 / 100)%R ->
  Spec.accurate_on (np E) eps e ->
  exists sim w',
    compute_similarity E req w
    = (Response (JObj [("success", JBool true);
                       ("similarity", JFloat sim);
                       ("model", JStr (MODEL_NAME E))]) 200, w')
    /\ (Rabs (Spec.real_of sim - 1) <= 6 * eps)%R.
Proof.
  intros Hmodel Hdata H1 H2 Hblank Henc (x & Hin & Hx) Heps
    (Hdot & Hnorm & Hmul & Hdiv).
  eexists _, _. split.
  - by apply (compute_similarity_run req w enc dkv t t e e rest).
  - unfold cosine.
    apply (cosine_self_tolerance eps
             (Spec.dot (Spec.real_of <$> e) (Spec.real_of <$> e))
             (Spec.real_of (np_dot (np E) e e))
             (Spec.real_of (np_linalg_norm (np E) e))
             (Spec.real_of (np_multiply (np E) (np_linalg_norm (np E) e)
                              (np_linalg_norm (np E) e)))); try done.
    apply dot_self_pos. exists (Spec.real_of x).
    split; [| done]. apply list_elem_of_fmap. by exists x.
Qed.

End Embeddings.

Lemma batch_embeddings_count_witness :
  exists body w',
    Embedding.create_batch_embeddings embed_env batch_request []
    = (Response body 200, w')
    /\ Spec.at_path body ["count"] = Some (JInt 2).
Proof.
  destruct (batch_embeddings_count embed_env batch_request [] toy_encoder
              [("texts", JArr [JStr "a"; JStr " "; JStr "bc"])]
              (JArr [JStr "a"; JStr " "; JStr "bc"]) eq_refl eq_refl eq_refl)
    as [_ Hlist].
  destruct (Hlist ["a"; " "; "bc"] eq_refl) as (_ & _ & Hsome).
  destruct (Hsome ltac:(simpl; lia)
              [[1%float; 1%float]; [1%float; 2%float]] eq_refl eq_refl)
    as (body & w' & Hrun & _ & _ & Hcount).
  by exists body, w'.
Defined.

Lemma similarity_contract_witness :
  exists sim w',
    Embedding.compute_similarity embed_env similarity_request []
    = (Response (JObj [("success", JBool true);
                       ("similarity", JFloat sim);
                       ("model", JStr "all-MiniLM-L6-v2")]) 200, w').
Proof.
  destruct (similarity_contract embed_env similarity_request [] toy_encoder eq_refl)
    as (_ & Hboth & _).
  destruct (Hboth [("text1", JStr "cat"); ("text2", JStr "dog")] "cat" "dog"
              eq_refl eq_refl eq_refl) as [_ Hok].
  destruct (Hok eq_refl eq_refl [1%float; 3%float] [1%float; 3%float] [] eq_refl)
    as (w' & Hrun & _).
  by eexists _, w'.
Defined.

Lemma real_of_finite (f : float) (sign : bool) (m : positive) (e : Z) :
  Prim2SF f = S754_finite sign m e ->
  Spec.real_of f = ((if sign then -1 else 1) * IZR (Z.pos m) * powerRZ 2 e)%R.
Proof. unfold Spec.real_of. by intros ->. Qed.

Lemma real_of_one : Spec.real_of 1%float = 1%R.
Proof.
  rewrite (real_of_finite 1 false 4503599627370496 (-52)) by reflexivity.
  change (powerRZ 2 (-52)) with (/ 2 ^ 52)%R. lra.
Qed.

Lemma real_of_three : Spec.real_of 3%float = 3%R.
Proof.
  rewrite (real_of_finite 3 false 6755399441055744 (-51)) by reflexivity.
  change (powerRZ 2 (-51)) with (/ 2 ^ 51)%R. lra.
Qed.

Lemma real_of_four : Spec.real_of 4%float = 4%R.
Proof.
  rewrite (real_of_finite 4 false 4503599627370496 (-50)) by reflexivity.
  change (powerRZ 2 (-50)) with (/ 2 ^ 50)%R. lra.
Qed.

Lemma real_of_five : Spec.real_of 5%float = 5%R.
Proof.
  rewrite (real_of_finite 5 false 5629499534213120 (-50)) by reflexivity.
  change (powerRZ 2 (-50)) with (/ 2 ^ 50)%R. lra.
Qed.

Lemma real_of_twenty_five : Spec.real_of 25%float = 25%R.
Proof.
  rewrite (real_of_finite 25 false 7036874417766400 (-48)) by reflexivity.
  change (powerRZ 2 (-48)) with (/ 2 ^ 48)%R. lra.
Qed.

Lemma close_exact (x : R) : Spec.close 0 x x.
Proof.
  unfold Spec.close. replace (x - x)%R with 0%R by ring. rewrite Rabs_R0. lra.
Qed.

(** On the row (3, 4) double precision computes the formula exactly. *)
Lemma constant_row_accurate :
  Spec.accurate_on numpy_double 0 [3%float; 4%float].
Proof.
  unfold Spec.accurate_on.
  change (Embedding.np_dot numpy_double [3%float; 4%float] [3%float; 4%float])
    with 25%float.
  change (Embedding.np_linalg_norm numpy_double [3%float; 4%float])
    with 5%float.
  change (Embedding.np_multiply numpy_double 5 5) with 25%float.
  change (Embedding.np_true_divide numpy_double 25 25) with 1%float.
  cbv zeta. unfold Spec.norm. simpl fmap. simpl Spec.dot.
  rewrite real_of_one, real_of_three, real_of_four, real_of_five,
    real_of_twenty_five.
  replace (3 * 3 + (4 * 4 + 0))%R with (5 * 5)%R by lra.
  rewrite sqrt_square by lra.
  replace (5 * 5)%R with 25%R by lra.
  replace (25 / 25)%R with 1%R by lra.
  repeat split; apply close_exact.
Qed.

Lemma similarity_with_itself_witness :
  exists sim w',
    Embedding.compute_similarity embed_env_constant similarity_request_same []
    = (Response (JObj [("success", JBool true);
                       ("similarity", JFloat sim);
                       ("model", JStr "all-MiniLM-L6-v2")]) 200, w')
    /\ (Rabs (Spec.real_of sim - 1) <= 6 * 0)%R.
Proof.
  refine (similarity_with_itself embed_env_constant similarity_request_same []
            constant_encoder [("text1", JStr "cat"); ("text2", JStr "cat")]
            "cat" [3%float; 4%float] [] 0%R
            eq_refl eq_refl eq_refl eq_refl eq_refl eq_refl _ _
            constant_row_accurate).
  - exists 3%float. split; [apply list_elem_of_here |].
    rewrite real_of_three. lra.
  - lra.
Defined.

(** C6 as stated fails.  When the encoder returns the zero row for a text,
    the similarity of the text with itself is the quotient of zero by
    zero, which is not a number; and a text that is not empty but holds
    only a space is answered with status 400 and no similarity at all. *)
Lemma similarity_with_itself_not_one :
  (exists sim w',
      Embedding.compute_similarity embed_env_zero similarity_request_same []
      = (Response (JObj [("success", JBool true);
                         ("similarity", JFloat sim);
                         ("model", JStr "all-MiniLM-L6-v2")]) 200, w')
      /\ PrimFloat.is_nan sim = true
      /\ (sim =? 1)%float = false)
  /\ Embedding.compute_similarity embed_env similarity_request_space []
     = (Response (JObj [("error", JStr "Empty texts provided")]) 400, []).
Proof.
  split; [| vm_compute; reflexivity].
  eexists _, _. split; [vm_compute; reflexivity |].
  split; reflexivity.
Qed.

(** C5 as stated fails: with the model loaded, a JSON body that is the
    number 5, a [text1] that is [null] and a body that does not parse
    supply no two texts, yet each is answered with status 500, not 400. *)
Lemma similarity_without_texts_is_500 :
  Embedding.compute_similarity embed_env request_body_number []
  = (Response (JObj [("success", JBool false);
                     ("error", JStr "argument of type 'int' is not iterable")])
       500,
     [Embedding.LogError [JStr "Similarity computation failed: ";
                          JStr "argument of type 'int' is not iterable"]])
  /\ Embedding.compute_similarity embed_env request_text1_null []
     = (Response (JObj [("success", JBool false);
                        ("error",
                         JStr "'NoneType' object has no attribute 'strip'")])
          500,
        [Embedding.LogError
           [JStr "Similarity computation failed: ";
            JStr "'NoneType' object has no attribute 'strip'"]])
  /\ Embedding.compute_similarity embed_env request_body_unparsable []
     = (Response (JObj [("success", JBool false);
                        ("error",
                         JStr "400 Bad Request: Failed to decode JSON object")])
          500,
        [Embedding.LogError
           [JStr "Similarity computation failed: ";
            JStr "400 Bad Request: Failed to decode JSON object"]]).
Proof. repeat split; vm_compute; reflexivity. Qed.

(* ===================================================================== *)
(** * Part VIII: further properties of the handlers                       *)
(* ===================================================================== *)

(** ** The transcription server, path by path *)

Section TranscribePaths.
Import Whisper.

Variable E : env.

Lemma write_chunks_run (p : path) (cs : list bytes) (w : world) (c0 : bytes) :
  fs w !! p = Some c0 ->
  write_chunks p cs w
  = (Ok tt, {| fs := <[p := c0 +:+ Spec.join cs]> (fs w);
               trace := (trace w ++ (FileWrite p <$> cs))%list |}).
Proof.
  revert w c0. induction cs as [|c cs IH]; intros w c0 Hp.
  - simpl. rewrite append_empty_r, app_nil_r, insert_id by done. by destruct w.
  - simpl. unfold file_write, emit, set_fs. run. rewrite Hp. simpl.
    rewrite (IH _ (c0 +:+ c)) by (simpl; apply lookup_insert_eq). simpl.
    by rewrite insert_insert_eq, append_assoc, <- app_assoc.
Qed.


Lemma download_refused (url : json) (w : world) (e : exn) :
  requests_get E url = Raise e
  \/ (exists resp, requests_get E url = Ok resp /\ raise_for_status resp = Raise e) ->
  download_audio_file E url w
  = (Raise e,
     {| fs := fs w;
        trace := (trace w ++ [LogInfo [JStr "Downloading audio from: "; url];
                              HttpGet url;
                              LogError [JStr "Failed to download audio: ";
                                        JStr e]])%list |}).
Proof.
  unfold download_audio_file, emit. run.
  intros [-> | (resp & -> & Hst)]; simpl; [| rewrite Hst; simpl];
    by rewrite <- !app_assoc.
Qed.

Lemma download_streams (url : json) (w : world) (resp : http_response) :
  requests_get E url = Ok resp ->
  raise_for_status resp = Ok tt ->
  let p := fresh (dom (fs w)) in
  let written :=
    (trace w ++ [LogInfo [JStr "Downloading audio from: "; url];
                 HttpGet url; TempCreate p]
       ++ (FileWrite p <$> chunks resp))%list in
  download_audio_file E url w
  = match stream_error resp with
    | Some e =>
        (Raise e,
         {| fs := <[p := Spec.join (chunks resp)]> (fs w);
            trace := (written ++ [LogError [JStr "Failed to download audio: ";
                                            JStr e]])%list |})
    | None =>
        (Ok p,
         {| fs := <[p := Spec.join (chunks resp)]> (fs w);
            trace := (written ++ [LogInfo [JStr "Audio downloaded to: ";
                                           JStr (path_name p)]])%list |})
    end.
Proof.
  intros Hget Hst p written. subst p written.
  unfold download_audio_file, named_temporary_file, emit, set_fs. run.
  rewrite Hget. simpl. rewrite Hst. simpl.
  rewrite (write_chunks_run _ _ _ "") by (simpl; apply lookup_insert_eq).
  simpl. rewrite insert_insert_eq.
  destruct (stream_error resp) as [e|]; simpl; by rewrite <- !app_assoc.
Qed.

(** X8. [download_audio_file] creates no file unless the server answered
    with a status that is not an error; once it did, the new file holds
    the chunks received, in order, whether or not the transfer completed:
    an interrupted transfer raises and leaves the partial file. *)
Theorem download_audio_file_outcomes (url : json) (w : world) :
  let '(r, w') := download_audio_file E url w in
  let p := fresh (dom (fs w)) in
  match requests_get E url with
  | Raise e => r = Raise e /\ fs w' = fs w
  | Ok resp =>
      match raise_for_status resp with
      | Raise e => r = Raise e /\ fs w' = fs w
      | Ok _ =>
          fs w !! p = None
          /\ fs w' = <[p := Spec.join (chunks resp)]> (fs w)
          /\ r = match stream_error resp with
                 | Some e => Raise e
                 | None => Ok p
                 end
      end
  end.
Proof.
  destruct (requests_get E url) as [resp|e] eqn:Hget.
  - destruct (raise_for_status resp) as [[]|e] eqn:Hst.
    + rewrite (download_streams url w resp Hget Hst).
      destruct (stream_error resp); simpl;
        (split; [apply fresh_path_free | done]).
    + rewrite (download_refused url w e) by eauto. done.
  - rewrite (download_refused url w e) by eauto. done.
Qed.


Lemma acquire_upload_run (req : request upload) (w : world) (u : upload)
    (form : gmap string upload) :
  files req = Ok form ->
  form !! "audio_file" = Some u ->
  let p := fresh (dom (fs w)) in
  acquire_audio E req {| fw := w; temp_file_path := None |}
  = match up_save_error u with
    | Some e =>
        (Raise e,
         {| fw := {| fs := <[p := ""]> (fs w);
                     trace := (trace w ++ [TempCreate p; FileSave p])%list |};
            temp_file_path := None |})
    | None =>
        (Ok true,
         {| fw := {| fs := <[p := up_content u]> (fs w);
                     trace := (trace w ++ [TempCreate p; FileSave p])%list |};
            temp_file_path := Some p |})
    end.
Proof.
  intros Hform Hfile p. subst p. unfold acquire_audio. rewrite Hform.
  unfold lift_result at 1. step. rewrite Hfile.
  unfold in_world, named_temporary_file, upload_save, assign_temp_file_path,
    emit, set_fs. run.
  destruct (up_save_error u); simpl; by rewrite <- ?app_assoc, ?insert_insert_eq.
Qed.

Lemma acquire_url_run (req : request upload) (w : world) (body url : json)
    (form : gmap string upload) :
  files req = Ok form ->
  form !! "audio_file" = None ->
  has_audio_url req = Ok true ->
  get_json req = Ok body ->
  py_getitem body "audio_url" = Ok url ->
  acquire_audio E req {| fw := w; temp_file_path := None |}
  = match download_audio_file E url w with
    | (Ok p, w1) => (Ok true, {| fw := w1; temp_file_path := Some p |})
    | (Raise e, w1) => (Raise e, {| fw := w1; temp_file_path := None |})
    end.
Proof.
  intros Hform Hfile Hurl Hbody Hget. unfold acquire_audio.
  rewrite Hform. unfold in_world, assign_temp_file_path.
  unfold try_except, zoom, lift_result, raise, get, modify.
  unfold mbind, M_bind, result_bind, bind, mret, M_ret, result_ret, ret.
  cbv beta iota. rewrite Hfile, Hurl. cbv beta iota. rewrite Hbody. cbv beta iota. rewrite Hget. cbv beta iota.
  simpl fw. destruct (download_audio_file E url w) as [[p|e] w1]; done.
Qed.

(** An acquisition that raises has not recorded a path; one that
    declines has done nothing. *)
Lemma acquire_audio_unrecorded (req : request upload) (w : world) (fr : frame)
    (r : result bool) :
  acquire_audio E req {| fw := w; temp_file_path := None |} = (r, fr) ->
  match r with
  | Ok true => True
  | Ok false => fr = {| fw := w; temp_file_path := None |}
  | Raise _ => temp_file_path fr = None
  end.
Proof.
  destruct (files req) as [form|e] eqn:Hform;
    [| unfold acquire_audio; rewrite Hform; run; by intros [= <- <-]].
  destruct (form !! "audio_file") as [u|] eqn:Hfile.
  - rewrite (acquire_upload_run req w u form Hform Hfile).
    destruct (up_save_error u); intros [= <- <-]; done.
  - unfold acquire_audio. rewrite Hform. unfold in_world, assign_temp_file_path.
    run. rewrite Hfile.
    destruct (has_audio_url req) as [[|]|]; simpl; [| by intros [= <- <-]; destruct w
                                                    | by intros [= <- <-]].
    destruct (get_json req) as [body|]; simpl; [| by intros [= <- <-]].
    destruct (py_getitem body "audio_url") as [url|]; simpl; [| by intros [= <- <-]].
    destruct (download_audio_file E url w) as [[p|e] w1]; simpl;
      by intros [= <- <-].
Qed.

(** What the handler does once the audio is in a recorded file. *)
Lemma transcribe_obtained_run (req : request upload) (w : world) (fr : frame)
    (p : path) (c : bytes) :
  acquire_audio E req {| fw := w; temp_file_path := None |} = (Ok true, fr) ->
  temp_file_path fr = Some p ->
  fs (fw fr) !! p = Some c ->
  let started :=
    (trace (fw fr)
       ++ [LogInfo [JStr "Transcribing audio file: "; JStr (path_name p)];
           ModelTranscribe p])%list in
  transcribe E req w
  = match whisper_model E with
    | None =>
        (Response (JObj [("error", JStr "Whisper model not loaded")]) 500, fw fr)
    | Some model =>
        match model (Some c) with
        | Ok r =>
            let result :=
              JObj [("text", JStr (r_text r));
                    ("language", JStr (default "unknown" (r_language r)));
                    ("segments", JArr (format_segments r))] in
            let done :=
              (started
                 ++ [LogInfo [JStr "Transcription completed. Found ";
                              JInt (Z.of_nat (length (format_segments r)));
                              JStr " segments"];
                     PathExists p; Unlink p])%list in
            match unlink_error E p with
            | None =>
                (Response (JObj [("success", JBool true); ("result", result)]) 200,
                 {| fs := delete p (fs (fw fr)); trace := done |})
            | Some e =>
                (Unhandled e,
                 {| fs := fs (fw fr);
                    trace := (done ++ [PathExists p; Unlink p])%list |})
            end
        | Raise e1 =>
            let failed :=
              (started ++ [LogError [JStr "Transcription failed: "; JStr e1];
                           PathExists p; Unlink p])%list in
            match unlink_error E p with
            | None =>
                (Response (JObj [("success", JBool false); ("error", JStr e1)]) 500,
                 {| fs := delete p (fs (fw fr));
                    trace := (failed
                                ++ [LogError [JStr "Transcription request failed: ";
                                              JStr e1]])%list |})
            | Some e => (Unhandled e, {| fs := fs (fw fr); trace := failed |})
            end
        end
    end.
Proof.
  intros Hacq Hp Hc started. subst started.
  assert (p ∈ dom (fs (fw fr))) as Hin by (apply elem_of_dom; eauto).
  unfold transcribe, transcribe_try, assign_temp_file_path. run.
  rewrite Hacq. unfold transcribe_rest.
  destruct (whisper_model E) as [model|] eqn:Hmodel; [| done].
  run. rewrite Hp.
  unfold in_world, transcribe_audio_file, emit. run. rewrite Hmodel. simpl.
  rewrite Hc.
  destruct (model (Some c)) as [r | e1]; simpl.
  - rewrite (cleanup_run E _ p) by done. simpl.
    destruct (unlink_error E p) as [e|] eqn:Hun; simpl.
    + unfold transcribe_except. run.
      rewrite (cleanup_run E _ p) by done. rewrite Hun. simpl.
      by rewrite <- !app_assoc.
    + by rewrite <- !app_assoc.
  - unfold transcribe_except. run.
    rewrite (cleanup_run E _ p) by done.
    destruct (unlink_error E p) as [e|] eqn:Hun; simpl.
    + by rewrite <- !app_assoc.
    + unfold in_world, emit. run. by rewrite <- !app_assoc.
Qed.

(** What the handler does when obtaining the audio raised. *)
Lemma transcribe_unobtained_run (req : request upload) (w : world) (fr : frame)
    (e : exn) :
  acquire_audio E req {| fw := w; temp_file_path := None |} = (Raise e, fr) ->
  transcribe E req w
  = (Response (JObj [("success", JBool false); ("error", JStr e)]) 500,
     {| fs := fs (fw fr);
        trace := (trace (fw fr)
                    ++ [LogError [JStr "Transcription request failed: ";
                                  JStr e]])%list |}).
Proof.
  intros Hacq. pose proof (acquire_audio_unrecorded req w fr _ Hacq) as Hnone.
  simpl in Hnone.
  unfold transcribe, transcribe_try, transcribe_except, assign_temp_file_path,
    cleanup, in_world, emit.
  run. rewrite Hacq. simpl. rewrite Hnone. done.
Qed.


(** X1. No exception leaves the handler other than a failure of
    [os.unlink]: as long as deleting temporary files does not raise,
    whatever the request holds and whatever the model call and the
    download return or raise, the outcome of the handler is a response,
    with status 200, 400 or 500.  That these calls return is taken for
    granted here: the download is made without a timeout. *)
Theorem transcribe_no_exception_escapes (req : request upload) (w : world) :
  (forall p, unlink_error E p = None) ->
  exists body status w',
    transcribe E req w = (Response body status, w')
    /\ (status = 200 \/ status = 400 \/ status = 500)%Z.
Proof.
  intros Hunlink.
  destruct (acquire_audio E req {| fw := w; temp_file_path := None |})
    as [[[|]|e] fr] eqn:Hacq.
  - destruct (acquire_audio_records E req w fr Hacq) as (p & c & Hp & _ & Hfs).
    assert (fs (fw fr) !! p = Some c) as Hc by (rewrite Hfs; apply lookup_insert_eq).
    rewrite (transcribe_obtained_run req w fr p c Hacq Hp Hc).
    destruct (whisper_model E) as [model|]; [| eexists _, _, _; eauto].
    rewrite Hunlink.
    destruct (model (Some c)); eexists _, _, _; eauto.
  - pose proof (acquire_audio_unrecorded req w fr _ Hacq) as ->.
    unfold transcribe, transcribe_try, assign_temp_file_path. run.
    rewrite Hacq. eexists _, _, _; eauto.
  - rewrite (transcribe_unobtained_run req w fr e Hacq). eexists _, _, _; eauto.
Qed.

(** X2. A response with status 200 is only given after the model ran on
    the temporary file and the file was deleted: the files are then
    exactly those from before the request. *)
Theorem transcribe_ok_leaves_no_file
    (req : request upload) (w w' : world) (body : json) :
  transcribe E req w = (Response body 200, w') ->
  fs w' = fs w
  /\ exists p result,
      body = JObj [("success", JBool true); ("result", result)]
      /\ ModelTranscribe p ∈ trace w'
      /\ Unlink p ∈ trace w'
      /\ fs w' !! p = None.
Proof.
  destruct (acquire_audio E req {| fw := w; temp_file_path := None |})
    as [[[|]|e] fr] eqn:Hacq.
  - destruct (acquire_audio_records E req w fr Hacq) as (p & c & Hp & Hfree & Hfs).
    assert (fs (fw fr) !! p = Some c) as Hc by (rewrite Hfs; apply lookup_insert_eq).
    rewrite (transcribe_obtained_run req w fr p c Hacq Hp Hc).
    destruct (whisper_model E) as [model|]; [| done].
    destruct (model (Some c)) as [r|e1], (unlink_error E p); try done.
    intros [= <- <-]. simpl.
    assert (delete p (fs (fw fr)) = fs w) as ->
        by (rewrite Hfs, delete_insert_eq; by apply delete_id).
    split; [done |]. eexists p, _. split; [done |].
    rewrite !elem_of_app, !list_elem_of_In. simpl. tauto.
  - pose proof (acquire_audio_unrecorded req w fr _ Hacq) as ->.
    unfold transcribe, transcribe_try, assign_temp_file_path. run.
    by rewrite Hacq.
  - by rewrite (transcribe_unobtained_run req w fr e Hacq).
Qed.



(** X5. When saving the upload fails, the handler answers 500 with the
    error, but the empty temporary file it had created stays: its path
    was not yet recorded, so no deletion is attempted. *)
Theorem transcribe_save_failure (req : request upload) (w : world) (u : upload)
    (e : exn) (form : gmap string upload) :
  files req = Ok form ->
  form !! "audio_file" = Some u ->
  up_save_error u = Some e ->
  let p := fresh (dom (fs w)) in
  transcribe E req w
  = (Response (JObj [("success", JBool false); ("error", JStr e)]) 500,
     {| fs := <[p := ""]> (fs w);
        trace := (trace w ++ [TempCreate p; FileSave p;
                              LogError [JStr "Transcription request failed: ";
                                        JStr e]])%list |}).
Proof.
  intros Hform Hfile Hsave p. subst p.
  pose proof (acquire_upload_run req w u form Hform Hfile) as Hacq. simpl in Hacq.
  rewrite Hsave in Hacq.
  rewrite (transcribe_unobtained_run req w _ e Hacq). simpl.
  by rewrite <- !app_assoc.
Qed.

(** X6. When the download is cut after the status check, the handler
    answers 500 with the error and the partial file stays, holding the
    chunks received. *)
Theorem transcribe_interrupted_download (req : request upload) (w : world)
    (kv : list (string * json)) (url : json) (resp : http_response) (e : exn)
    (form : gmap string upload) :
  files req = Ok form ->
  form !! "audio_file" = None ->
  is_json req = true ->
  get_json req = Ok (JObj kv) ->
  assoc "audio_url" kv = Some url ->
  requests_get E url = Ok resp ->
  raise_for_status resp = Ok tt ->
  stream_error resp = Some e ->
  let p := fresh (dom (fs w)) in
  transcribe E req w
  = (Response (JObj [("success", JBool false); ("error", JStr e)]) 500,
     {| fs := <[p := Spec.join (chunks resp)]> (fs w);
        trace := (trace w
                    ++ [LogInfo [JStr "Downloading audio from: "; url];
                        HttpGet url; TempCreate p]
                    ++ (FileWrite p <$> chunks resp)
                    ++ [LogError [JStr "Failed to download audio: "; JStr e];
                        LogError [JStr "Transcription request failed: ";
                                  JStr e]])%list |}).
Proof.
  intros Hform Hfile Hjson Hbody Hurl Hget Hst Hstream p. subst p.
  assert (acquire_audio E req {| fw := w; temp_file_path := None |}
          = (Raise e,
             {| fw := (download_audio_file E url w).2;
                temp_file_path := None |})) as Hacq.
  { rewrite (acquire_url_run req w (JObj kv) url form Hform Hfile
               (has_audio_url_object req kv url Hjson Hbody Hurl) Hbody)
      by (simpl; by rewrite Hurl).
    rewrite (download_streams url w resp Hget Hst), Hstream. done. }
  rewrite (transcribe_unobtained_run req w _ e Hacq).
  rewrite (download_streams url w resp Hget Hst), Hstream. simpl.
  by rewrite <- !app_assoc.
Qed.

(** X7. With no model loaded, a request that obtained its audio is
    answered 500 right after, with nothing more done: the model is not
    called and the temporary file, which is new, is not deleted. *)
Theorem transcribe_model_missing (req : request upload) (w : world) (fr : frame) :
  whisper_model E = None ->
  acquire_audio E req {| fw := w; temp_file_path := None |} = (Ok true, fr) ->
  transcribe E req w
  = (Response (JObj [("error", JStr "Whisper model not loaded")]) 500, fw fr)
  /\ exists p c, temp_file_path fr = Some p
                 /\ fs w !! p = None
                 /\ fs (fw fr) = <[p := c]> (fs w).
Proof.
  intros Hmodel Hacq.
  destruct (acquire_audio_records E req w fr Hacq) as (p & c & Hp & Hfree & Hfs).
  assert (fs (fw fr) !! p = Some c) as Hc by (rewrite Hfs; apply lookup_insert_eq).
  rewrite (transcribe_obtained_run req w fr p c Hacq Hp Hc), Hmodel.
  split; [done |]. by exists p, c.
Qed.

End TranscribePaths.

(** ** The chat handler, path by path *)

Section ChatPaths.
Import Chat.

Variable E : env.

(** X9. The chat handler always answers, with status 200, 400 or 500:
    nothing the request, the runtime or the reply can be makes an
    exception leave it. *)
Theorem chat_completions_always_answers {U} (req : request U) (w : world) :
  exists body status w',
    chat_completions E req w = (Response body status, w')
    /\ (status = 200 \/ status = 400 \/ status = 500)%Z.
Proof.
  unfold chat_completions, chat_completions_try, chat_completions_except,
    check_ollama_running, emit.
  run.
  destruct (match get_tags E with Ok code => (code =? 200)%Z | Raise _ => false end);
    simpl; [| eexists _, _, _; eauto].
  destruct (get_json req) as [data|]; simpl; [| eexists _, _, _; eauto].
  destruct (truthy data); simpl; [| eexists _, _, _; eauto].
  destruct (py_get data "messages" (JArr [])) as [messages|]; simpl;
    [| eexists _, _, _; eauto].
  destruct (truthy messages); simpl; [| eexists _, _, _; eauto].
  destruct (build_prompt E messages) as [prompt|]; simpl;
    [| eexists _, _, _; eauto].
  destruct (generate_payload E data prompt) as [payload|]; simpl;
    [| eexists _, _, _; eauto].
  destruct (post_generate E payload) as [reply|]; simpl;
    [| eexists _, _, _; eauto].
  destruct (negb (status_code reply =? 200)%Z); simpl;
    [eexists _, _, _; eauto |].
  destruct (json_body reply) as [oresp|]; simpl; [| eexists _, _, _; eauto].
  destruct (py_get oresp "response" (JStr "")) as [gen|]; simpl;
    [| eexists _, _, _; eauto].
  destruct (completion_body E prompt gen) as [body|]; simpl;
    eexists _, _, _; eauto.
Qed.

(** X10. When the probe of the runtime fails or is not answered with
    200, the handler answers 500 having done nothing but the probe: the
    request body is not read and nothing is posted or logged. *)
Theorem chat_completions_not_running {U} (req : request U) (w : world) :
  get_tags E <> Ok 200%Z ->
  chat_completions E req w
  = (Response
       (JObj [("error", JStr "Ollama is not running. Please start Ollama first.")])
       500,
     (w ++ [GetTags])%list).
Proof.
  intros Hdown.
  unfold chat_completions, chat_completions_try, check_ollama_running, emit.
  run.
  destruct (get_tags E) as [code|e]; simpl; [| done].
  destruct (Z.eqb_spec code 200) as [-> | _]; [done | done].
Qed.

(** X11. With the runtime up, a body that counts as false is rejected
    with 400 "No data provided", and an object whose [messages] is
    missing or counts as false with 400 "No messages provided"; in both
    cases nothing is posted to the runtime. *)
Theorem chat_completions_rejects_empty {U} (req : request U) (w : world)
    (data : json) :
  get_tags E = Ok 200%Z ->
  get_json req = Ok data ->
  (truthy data = false ->
   chat_completions E req w
   = (Response (JObj [("error", JStr "No data provided")]) 400,
      (w ++ [GetTags])%list))
  /\ (forall dkv,
        data = JObj dkv -> dkv <> [] ->
        truthy (default (JArr []) (assoc "messages" dkv)) = false ->
        chat_completions E req w
        = (Response (JObj [("error", JStr "No messages provided")]) 400,
           (w ++ [GetTags])%list)).
Proof.
  intros Htags Hdata. split.
  - intros Hfalse.
    unfold chat_completions, chat_completions_try, check_ollama_running, emit.
    run. rewrite Htags. simpl. rewrite Hdata. simpl. by rewrite Hfalse.
  - intros dkv -> Hne Hmsgs.
    unfold chat_completions, chat_completions_try, check_ollama_running, emit.
    run. rewrite Htags. simpl. rewrite Hdata. simpl.
    destruct dkv as [|kv dkv]; [done |]. simpl.
    simpl in Hmsgs. by rewrite Hmsgs.
Qed.


(** X12. Failures of the runtime become status 500: an exception of the
    call (timeout, refused connection) is reported with its message, and
    a reply with a status other than 200 with ["Ollama API error: "]
    followed by the reply's text, whose JSON is then never parsed. *)
Theorem chat_completions_runtime_failure {U} (req : request U) (w : world)
    (data messages payload : json) (prompt : string) :
  get_tags E = Ok 200%Z ->
  get_json req = Ok data -> truthy data = true ->
  py_get data "messages" (JArr []) = Ok messages -> truthy messages = true ->
  build_prompt E messages = Ok prompt ->
  generate_payload E data prompt = Ok payload ->
  let posted :=
    (w ++ [GetTags;
           LogInfo [JStr "Generating response for prompt of length ";
                    JInt (Z.of_nat (String.length prompt))];
           PostGenerate payload])%list in
  match post_generate E payload with
  | Raise e =>
      chat_completions E req w
      = (Response (JObj [("error", JStr e)]) 500,
         (posted ++ [LogError [JStr "Chat completion failed: "; JStr e]])%list)
  | Ok reply =>
      status_code reply <> 200%Z ->
      chat_completions E req w
      = (Response (JObj [("error", JStr ("Ollama API error: " +:+ text reply))])
           500, posted)
  end.
Proof.
  intros Htags Hdata Htd Hmsgs Htm Hprompt Hpay posted. subst posted.
  unfold chat_completions, chat_completions_try, chat_completions_except,
    check_ollama_running, emit.
  run. rewrite Htags. simpl. rewrite Hdata. simpl. rewrite Htd. simpl.
  rewrite Hmsgs. simpl. rewrite Htm. simpl. rewrite Hprompt. simpl.
  rewrite Hpay. simpl.
  destruct (post_generate E payload) as [reply|e]; simpl.
  - intros Hstatus. apply Z.eqb_neq in Hstatus. rewrite Hstatus. simpl.
    by rewrite <- !app_assoc.
  - by rewrite <- !app_assoc.
Qed.



(** X14. A message that is not an object (a string, a number, a list)
    makes the whole request fail with status 500 and the Python error of
    the missing [get]; the messages after it are not looked at and
    nothing is posted. *)
Theorem chat_completions_malformed_message {U} (req : request U) (w : world)
    (dkv : list (string * json)) (l1 l2 : list json) (x : json)
    (prompt1 : string) :
  get_tags E = Ok 200%Z ->
  get_json req = Ok (JObj dkv) ->
  assoc "messages" dkv = Some (JArr (l1 ++ x :: l2)) ->
  add_messages E "" l1 = Ok prompt1 ->
  (forall kv, x <> JObj kv) ->
  chat_completions E req w
  = (Response (JObj [("error", JStr (attribute_error x "get"))]) 500,
     (w ++ [GetTags;
            LogError [JStr "Chat completion failed: ";
                      JStr (attribute_error x "get")]])%list).
Proof.
  intros Htags Hdata Hmsgs Hl1 Hx.
  assert (build_prompt E (JArr (l1 ++ x :: l2)) = Raise (attribute_error x "get"))
    as Hprompt.
  { unfold build_prompt. simpl. rewrite add_messages_app, Hl1. simpl.
    unfold add_message.
    destruct x as [| | | | | |kv]; try done. by destruct (Hx kv). }
  unfold chat_completions, chat_completions_try, chat_completions_except,
    check_ollama_running, emit.
  run. rewrite Htags. simpl. rewrite Hdata. simpl.
  destruct dkv as [|kv0 dkv]; [done |]. simpl. simpl in Hmsgs. rewrite Hmsgs.
  simpl.
  assert (match (l1 ++ x :: l2)%list with [] => false | _ :: _ => true end = true)
    as -> by (by destruct l1).
  simpl. rewrite Hprompt. simpl. by rewrite <- !app_assoc.
Qed.

End ChatPaths.

(** ** Managing the runtime *)

(** Going through the members of an explicit list. *)
Ltac members H :=
  apply list_elem_of_In in H; simpl in H;
  repeat (destruct H as [H | H]); try discriminate H; try done.

Section Runtime.
Import ChatAdmin.

Variable A : env.

Lemma check_ollama_running_run (s : world) :
  check_ollama_running A s
  = (Ok (Admin.running_at A (clock s)),
     {| clock := S (clock s);
        events := (events s ++ [Base Chat.GetTags])%list |}).
Proof.
  unfold check_ollama_running, Chat.check_ollama_running, Chat.emit,
    Admin.running_at, chat_env_at.
  run. by destruct (tags_at A (clock s)).
Qed.


Lemma start_ollama_run (s : world) :
  start_ollama A s
  = let n := clock s in
    if Admin.running_at A n then
      (Ok (Admin.running_at A (S n)),
       {| clock := S (S n);
          events := (events s ++ [Base Chat.GetTags; Base Chat.GetTags])%list |})
    else
      match popen A with
      | Ok _ =>
          (Ok (Admin.running_at A (S n)),
           {| clock := S (S n);
              events := (events s
                           ++ [Base Chat.GetTags;
                               Base (Chat.LogInfo [JStr "Starting Ollama..."]);
                               Popen; Sleep 3; Base Chat.GetTags])%list |})
      | Raise e =>
          (Ok false,
           {| clock := S n;
              events := (events s
                           ++ [Base Chat.GetTags;
                               Base (Chat.LogInfo [JStr "Starting Ollama..."]);
                               Popen;
                               Base (Chat.LogError [JStr "Failed to start Ollama: ";
                                                    JStr e])])%list |})
      end.
Proof.
  unfold start_ollama, log_info, log_error, emit.
  unfold try_except, zoom, lift_result, raise, get, modify.
  unfold mbind, M_bind, result_bind, bind, mret, M_ret, result_ret, ret.
  cbv beta iota zeta. rewrite check_ollama_running_run.
  destruct (Admin.running_at A (clock s)); cbv beta iota zeta delta [negb].
  - rewrite check_ollama_running_run. simpl. by rewrite <- !app_assoc.
  - destruct (popen A) as [[]|e]; cbv beta iota zeta.
    + rewrite check_ollama_running_run. simpl. by rewrite <- !app_assoc.
    + simpl. by rewrite <- !app_assoc.
Qed.

(** X15. [start_ollama] never raises.  It spawns the runtime exactly
    when its first probe fails, and it reports success exactly when the
    probe it makes afterwards is answered with 200; if spawning itself
    fails it reports failure without probing again. *)
Theorem start_ollama_outcome (s : world) :
  exists b new s',
    start_ollama A s = (Ok b, s')
    /\ events s' = (events s ++ new)%list
    /\ (Popen ∈ new <-> Admin.running_at A (clock s) = false)
    /\ (b = true
        <-> Admin.running_at A (S (clock s)) = true
            /\ (Admin.running_at A (clock s) = true \/ popen A = Ok tt))
    /\ (Admin.running_at A (clock s) = false -> popen A <> Ok tt ->
        clock s' = S (clock s)).
Proof.
  rewrite start_ollama_run. simpl.
  destruct (Admin.running_at A (clock s)) eqn:Hfirst.
  - eexists _, _, _. split; [reflexivity |]. split; [reflexivity |].
    split; [| split; [| done]].
    + rewrite list_elem_of_In. simpl. intuition congruence.
    + intuition.
  - destruct (popen A) as [[]|e] eqn:Hpopen.
    + eexists _, _, _. split; [reflexivity |]. split; [reflexivity |].
      split; [| split; [| done]].
      * rewrite list_elem_of_In. simpl. intuition.
      * intuition.
    + eexists _, _, _. split; [reflexivity |]. split; [reflexivity |].
      split; [| split; [| done]].
      * rewrite list_elem_of_In. simpl. intuition.
      * split; [done |]. intros [_ [? | ?]]; done.
Qed.

Lemma fetch_tags_run (s : world) :
  fetch_tags A s
  = (tags_at A (clock s),
     {| clock := S (clock s); events := (events s ++ [FetchTags])%list |}).
Proof. unfold fetch_tags, next_request, emit. run. done. Qed.

Lemma ensure_model_available_run (s : world) :
  ensure_model_available A s
  = let n := clock s in
    let model := JStr (OLLAMA_MODEL A) in
    let failed k evs e :=
      (Ok false,
       {| clock := k;
          events := (events s ++ evs
                       ++ [Base (Chat.LogError
                                   [JStr "Error checking model availability: ";
                                    JStr e])])%list |}) in
    if Admin.running_at A n then
      match tags_at A (S n) with
      | Raise e => failed (S (S n)) [Base Chat.GetTags; FetchTags] e
      | Ok reply =>
          if (Chat.status_code reply =? 200)%Z then
            match installed_models reply with
            | Raise e => failed (S (S n)) [Base Chat.GetTags; FetchTags] e
            | Ok names =>
                let pulling :=
                  [Base Chat.GetTags; FetchTags;
                   Base (Chat.LogInfo [JStr "Model "; model;
                                       JStr " not found. Available models: ";
                                       JArr names]);
                   Base (Chat.LogInfo [JStr "Pulling model "; model;
                                       JStr "... This may take a while."]);
                   PostPull (JObj [("name", model)])] in
                if Admin.installed A names then
                  (Ok true,
                   {| clock := S (S n);
                      events := (events s
                                   ++ [Base Chat.GetTags; FetchTags;
                                       Base (Chat.LogInfo
                                               [JStr "Model "; model;
                                                JStr " is available"])])%list |})
                else
                  match pull_at A (S (S n)) with
                  | Raise e => failed (S (S (S n))) pulling e
                  | Ok pulled =>
                      if (Chat.status_code pulled =? 200)%Z then
                        (Ok true,
                         {| clock := S (S (S n));
                            events := (events s ++ pulling
                                         ++ [Base (Chat.LogInfo
                                                     [JStr "Model "; model;
                                                      JStr " pulled successfully"])])%list |})
                      else
                        (Ok false,
                         {| clock := S (S (S n));
                            events := (events s ++ pulling
                                         ++ [Base (Chat.LogError
                                                     [JStr "Failed to pull model: ";
                                                      JStr (Chat.text pulled)])])%list |})
                  end
            end
          else
            (Ok false,
             {| clock := S (S n);
                events := (events s ++ [Base Chat.GetTags; FetchTags])%list |})
      end
    else
      (Ok false,
       {| clock := S n; events := (events s ++ [Base Chat.GetTags])%list |}).
Proof.
  unfold ensure_model_available, log_info, log_error, emit, next_request,
    Admin.installed.
  unfold try_except, zoom, lift_result, raise, get, modify.
  unfold mbind, M_bind, result_bind, bind, mret, M_ret, result_ret, ret.
  cbv beta iota zeta. rewrite check_ollama_running_run.
  destruct (Admin.running_at A (clock s)); cbv beta iota zeta delta [negb];
    [| done].
  rewrite fetch_tags_run. simpl.
  destruct (tags_at A (S (clock s))) as [reply|e]; simpl;
    [| by rewrite <- !app_assoc].
  destruct (Chat.status_code reply =? 200)%Z; simpl;
    [| by rewrite <- !app_assoc].
  destruct (installed_models reply) as [names|e]; simpl;
    [| by rewrite <- !app_assoc].
  destruct (existsb (is_str (OLLAMA_MODEL A)) names); simpl;
    [by rewrite <- !app_assoc |].
  destruct (pull_at A (S (S (clock s)))) as [pulled|e]; simpl;
    [| by rewrite <- !app_assoc].
  destruct (Chat.status_code pulled =? 200)%Z; simpl; by rewrite <- !app_assoc.
Qed.


(** X16. With the runtime up and its list of models readable,
    [ensure_model_available] pulls exactly when the configured model is
    not installed; what it pulls is that model, once; and it reports
    success when the model was installed or the pull was answered with
    200. *)
Theorem ensure_model_available_pulls_when_absent (s : world)
    (reply : Chat.http_reply) (names : list json) :
  Admin.running_at A (clock s) = true ->
  tags_at A (S (clock s)) = Ok reply ->
  Chat.status_code reply = 200%Z ->
  installed_models reply = Ok names ->
  exists b new s',
    ensure_model_available A s = (Ok b, s')
    /\ events s' = (events s ++ new)%list
    /\ ((exists payload, PostPull payload ∈ new) <-> Admin.installed A names = false)
    /\ (forall payload,
          PostPull payload ∈ new ->
          payload = JObj [("name", JStr (OLLAMA_MODEL A))])
    /\ b = (Admin.installed A names
            || match pull_at A (S (S (clock s))) with
               | Ok pulled => (Chat.status_code pulled =? 200)%Z
               | Raise _ => false
               end).
Proof.
  intros Hrun Htags Hstatus Hnames.
  rewrite ensure_model_available_run. simpl.
  rewrite Hrun, Htags, Hstatus, Hnames. simpl.
  destruct (Admin.installed A names) eqn:Hinst; simpl.
  - eexists _, _, _. split; [reflexivity |]. split; [reflexivity |].
    split; [| split; [| done]].
    + split; [| done]. intros [payload Hin]. members Hin.
    + intros payload Hin. members Hin.
  - destruct (pull_at A (S (S (clock s)))) as [pulled|e]; simpl;
      [destruct (Chat.status_code pulled =? 200)%Z |];
      (eexists _, _, _; split; [reflexivity |]; split; [reflexivity |];
       split; [| split; [| done]];
       [ split; [done |]; intros _; eexists;
         apply list_elem_of_In; simpl; eauto 10
       | intros payload Hin; members Hin; by injection Hin as <- ]).
Qed.

Lemma ensure_model_available_needs_runtime (s : world) :
  exists b s',
    ensure_model_available A s = (Ok b, s')
    /\ (b = true -> Admin.running_at A (clock s) = true).
Proof.
  rewrite ensure_model_available_run. simpl.
  destruct (Admin.running_at A (clock s));
    [| eexists _, _; split; [reflexivity | intros [=]]].
  destruct (tags_at A (S (clock s))) as [reply|e];
    [| eexists _, _; split; [reflexivity | done]].
  destruct (Chat.status_code reply =? 200)%Z;
    [| eexists _, _; split; [reflexivity | done]].
  destruct (installed_models reply) as [names|e];
    [| eexists _, _; split; [reflexivity | done]].
  destruct (Admin.installed A names);
    [eexists _, _; split; [reflexivity | done] |].
  destruct (pull_at A (S (S (clock s)))) as [pulled|e];
    [| eexists _, _; split; [reflexivity | done]].
  destruct (Chat.status_code pulled =? 200)%Z;
    eexists _, _; split; [reflexivity | done | reflexivity | done].
Qed.

(** X17. [ensure_model_available] never raises, and it reports success
    only if the runtime answered its probe, listed its models with
    status 200, and either had the configured model installed or
    answered the pull with 200. *)
Theorem ensure_model_available_sound (s : world) :
  exists b s',
    ensure_model_available A s = (Ok b, s')
    /\ (b = true ->
        Admin.running_at A (clock s) = true
        /\ exists reply names,
            tags_at A (S (clock s)) = Ok reply
            /\ Chat.status_code reply = 200%Z
            /\ installed_models reply = Ok names
            /\ (Admin.installed A names = true
                \/ exists pulled,
                    pull_at A (S (S (clock s))) = Ok pulled
                    /\ Chat.status_code pulled = 200%Z)).
Proof.
  rewrite ensure_model_available_run. simpl.
  destruct (Admin.running_at A (clock s)); [| eexists _, _; split; [reflexivity | intros [=]]].
  destruct (tags_at A (S (clock s))) as [reply|e] eqn:Htags; [| eexists _, _; split; [reflexivity | intros [=]]].
  destruct (Z.eqb_spec (Chat.status_code reply) 200) as [Hst|_];
    [| eexists _, _; split; [reflexivity | intros [=]]].
  destruct (installed_models reply) as [names|e] eqn:Hnames; [| eexists _, _; split; [reflexivity | intros [=]]].
  destruct (Admin.installed A names) eqn:Hinst.
  - eexists _, _. split; [reflexivity |]. intros _. split; [done |].
    exists reply, names. repeat split; auto.
  - destruct (pull_at A (S (S (clock s)))) as [pulled|e] eqn:Hpull; [| eexists _, _; split; [reflexivity | intros [=]]].
    destruct (Z.eqb_spec (Chat.status_code pulled) 200) as [Hp|_];
      [| eexists _, _; split; [reflexivity | intros [=]]].
    eexists _, _. split; [reflexivity |]. intros _. split; [done |].
    exists reply, names. repeat split; eauto.
Qed.


(** X18. No exception leaves [POST /setup]: whatever the runtime's
    answers are, the outcome of the handler is a response, with status
    200 or 500.  The status is 200 only with the success body naming the
    configured model, and only if the runtime answered both the probe
    that ends the start and the probe that begins the model check.  That
    the runtime answers at all is taken for granted here: the model list
    is fetched without a timeout. *)
Theorem setup_ollama_no_exception_escapes (s : world) :
  exists body status s',
    setup_ollama A s = (Response body status, s')
    /\ (status = 200 \/ status = 500)%Z
    /\ (status = 200%Z ->
        body = JObj [("success", JBool true);
                     ("message", JStr ("Ollama setup complete with model "
                                       +:+ OLLAMA_MODEL A));
                     ("model", JStr (OLLAMA_MODEL A))]
        /\ Admin.running_at A (S (clock s)) = true
        /\ Admin.running_at A (S (S (clock s))) = true).
Proof.
  unfold setup_ollama, setup_ollama_try, log_info, emit.
  unfold try_except, zoom, lift_result, raise, get, modify.
  unfold mbind, M_bind, result_bind, bind, mret, M_ret, result_ret, ret.
  cbv beta iota zeta. rewrite start_ollama_run. cbv beta iota zeta.
  simpl clock. simpl events.
  assert (Admin.running_at A (S (clock s)) = true
          \/ Admin.running_at A (S (clock s)) = false) as [Hup | Hup]
      by (destruct (Admin.running_at A (S (clock s))); auto).
  2: { rewrite Hup.
       destruct (Admin.running_at A (clock s)); [| destruct (popen A) as [[]|e]];
         cbv beta iota zeta delta [negb];
         (eexists _, _, _; split; [reflexivity |]; split; [by right | done]). }
  rewrite Hup.
  destruct (Admin.running_at A (clock s)); [| destruct (popen A) as [[]|e]];
    cbv beta iota zeta delta [negb];
    try (eexists _, _, _; split; [reflexivity |]; split; [by right | done]);
    match goal with
    | |- context [ensure_model_available A ?st] =>
        destruct (ensure_model_available_needs_runtime st)
          as (b & s' & Heq & Htrue);
        rewrite Heq
    end;
    (destruct b; cbv beta iota zeta delta [negb];
     [ eexists _, _, _; split; [reflexivity |]; split; [by left |];
       intros _; split; [done |]; split; [done | by apply Htrue]
     | eexists _, _, _; split; [reflexivity |]; split; [by right | done] ]).
Qed.


(** X19. When the runtime is not up after the start (its last probe is
    not answered with 200, or it was down and could not be spawned),
    [POST /setup] answers 500 "Failed to start Ollama" and the model
    check is never reached: the list of models is not fetched and
    nothing is pulled. *)
Theorem setup_ollama_not_started (s : world) :
  Admin.running_at A (S (clock s)) = false
  \/ (Admin.running_at A (clock s) = false /\ popen A <> Ok tt) ->
  exists new s',
    setup_ollama A s
    = (Response (JObj [("error", JStr "Failed to start Ollama")]) 500, s')
    /\ events s' = (events s ++ new)%list
    /\ (FetchTags ∉ new)
    /\ (forall payload, PostPull payload ∉ new).
Proof.
  intros Hdown.
  unfold setup_ollama, setup_ollama_try, log_info, emit.
  unfold try_except, zoom, lift_result, raise, get, modify.
  unfold mbind, M_bind, result_bind, bind, mret, M_ret, result_ret, ret.
  cbv beta iota zeta. rewrite start_ollama_run. cbv beta iota zeta.
  simpl clock. simpl events.
  destruct (Admin.running_at A (clock s)) eqn:Hfirst.
  - destruct Hdown as [-> | [? _]]; [| done]. cbv beta iota zeta delta [negb].
    eexists _, _. split; [reflexivity |]. simpl.
    split; [by rewrite <- app_assoc |].
    split; [intros Hin | intros payload Hin]; members Hin.
  - destruct (popen A) as [[]|e].
    + destruct Hdown as [-> | [_ ?]]; [| done]. cbv beta iota zeta delta [negb].
      eexists _, _. split; [reflexivity |]. simpl.
      split; [by rewrite <- app_assoc |].
      split; [intros Hin | intros payload Hin]; members Hin.
    + cbv beta iota zeta delta [negb].
      eexists _, _. split; [reflexivity |]. simpl.
      split; [by rewrite <- app_assoc |].
      split; [intros Hin | intros payload Hin]; members Hin.
Qed.


End Runtime.

(** ** The embedding handlers, path by path *)

Section EmbeddingPaths.
Import Embedding.

Variable E : env.

Lemma lacks_present (dkv : list (string * json)) (k : string) (v : json) :
  assoc k dkv = Some v -> lacks (JObj dkv) k = Ok false.
Proof.
  intros Hk. unfold lacks. rewrite (assoc_truthy _ _ _ Hk). simpl. by rewrite Hk.
Qed.

Lemma lacks_missing (data : json) (k : string) :
  truthy data = false \/ (exists dkv, data = JObj dkv /\ assoc k dkv = None) ->
  lacks data k = Ok true.
Proof.
  unfold lacks. intros [-> | (dkv & -> & Hk)]; [done |].
  destruct (truthy (JObj dkv)); [| done]. simpl. by rewrite Hk.
Qed.

(** X21. [POST /embed] with the model loaded: a JSON body that counts as
    false, or an object without [text], is rejected with 400, and so is a
    text string that is empty or whitespace-only, without calling the
    encoder; any other text string is encoded alone, and the answer
    carries the encoder's row and, as [dimensions], the length of that
    row.  A body that does not parse or is a true number or boolean, and
    a [text] that is not a string, are not rejected with 400: the handler
    raises on them and answers 500, without calling the encoder. *)
Theorem create_embedding_contract {U} (req : request U) (w : world)
    (enc : list string -> result (list vector)) :
  embedding_model E = Some enc ->
  (forall data,
      get_json req = Ok data ->
      truthy data = false
      \/ (exists dkv, data = JObj dkv /\ assoc "text" dkv = None) ->
      create_embedding E req w
      = (Response (JObj [("error", JStr "No text provided")]) 400, w))
  /\ (forall dkv t,
        get_json req = Ok (JObj dkv) ->
        assoc "text" dkv = Some (JStr t) ->
        (Spec.blank t = true ->
         create_embedding E req w
         = (Response (JObj [("error", JStr "Empty text provided")]) 400, w))
        /\ (Spec.blank t = false ->
            forall v rest,
              enc [t] = Ok (v :: rest) ->
              create_embedding E req w
              = (Response
                   (JObj [("success", JBool true);
                          ("embedding", JArr (JFloat <$> v));
                          ("dimensions", JInt (Z.of_nat (length v)));
                          ("model", JStr (MODEL_NAME E))]) 200,
                 (w ++ [LogInfo [JStr "Creating embedding for text of length ";
                                 JInt (Z.of_nat (String.length t))];
                        Encode [t];
                        LogInfo [JStr "Generated embedding with ";
                                 JInt (Z.of_nat (length v));
                                 JStr " dimensions"]])%list)))
  /\ ((exists e, get_json req = Raise e)
      \/ (exists data, get_json req = Ok data /\ Spec.true_scalar data)
      \/ (exists dkv v,
            get_json req = Ok (JObj dkv)
            /\ assoc "text" dkv = Some v
            /\ Spec.not_text v) ->
      exists e,
        create_embedding E req w
        = (Response (JObj [("success", JBool false); ("error", JStr e)]) 500,
           (w ++ [LogError [JStr "Embedding creation failed: ";
                            JStr e]])%list)).
Proof.
  intros Hmodel. split; [| split].
  3: { unfold create_embedding, create_embedding_try, create_embedding_except,
         emit.
       rewrite Hmodel.
       intros [(e & Hdata) | [(data & Hdata & Hscalar)
                             | (dkv & v & Hdata & Ht & Hv)]];
         rewrite Hdata; step.
       - by exists e.
       - destruct (lacks_raising data "text" Hscalar) as [e He].
         exists e. rewrite He. by step.
       - rewrite (lacks_present dkv _ _ Ht). step.
         assert (py_getitem (JObj dkv) "text" = Ok v) as ->
             by (simpl; by rewrite Ht).
         step. rewrite (py_strip_raising v Hv). step. by eexists. }
  - intros data Hdata Hmiss.
    unfold create_embedding, create_embedding_try.
    rewrite Hmodel, Hdata. step. rewrite (lacks_missing data "text" Hmiss).
    by step.
  - intros dkv t Hdata Ht.
    assert (py_getitem (JObj dkv) "text" = Ok (JStr t)) as Hget
        by (simpl; by rewrite Ht).
    split.
    + intros Hblank.
      unfold create_embedding, create_embedding_try.
      rewrite Hmodel, Hdata. step. rewrite (lacks_present dkv _ _ Ht). step.
      rewrite Hget. step. unfold py_strip. cbv beta iota.
      by rewrite strip_empty_iff_blank, Hblank.
    + intros Hblank v rest Henc.
      unfold create_embedding, create_embedding_try.
      rewrite Hmodel, Hdata. step. rewrite (lacks_present dkv _ _ Ht). step.
      rewrite Hget. step. unfold py_strip. cbv beta iota.
      rewrite strip_empty_iff_blank, Hblank.
      unfold encode_one, encode, emit. run. rewrite Hmodel. simpl.
      rewrite Henc. simpl. rewrite length_fmap. by rewrite <- !app_assoc.
Qed.

(** X22. The three embedding endpoints always answer, with status 200,
    400 or 500: whatever the body holds and whatever the encoder does,
    no exception leaves a handler. *)
Theorem embedding_always_answers {U} (req : request U) (w : world) :
  let answers (handler : world -> outcome * world) :=
    exists body status w',
      handler w = (Response body status, w')
      /\ (status = 200 \/ status = 400 \/ status = 500)%Z in
  answers (create_embedding E req)
  /\ answers (create_batch_embeddings E req)
  /\ answers (compute_similarity E req).
Proof.
  intros answers. subst answers. cbv beta. split; [| split].
  - unfold create_embedding, create_embedding_try, create_embedding_except,
      encode_one, encode, emit.
    run. repeat case_match; simplify_eq; eexists _, _, _; eauto.
  - unfold create_batch_embeddings, create_batch_embeddings_try,
      create_batch_embeddings_except, encode, emit.
    run. repeat case_match; simplify_eq; eexists _, _, _; eauto.
  - unfold compute_similarity, compute_similarity_try,
      compute_similarity_except, encode, emit.
    run. repeat case_match; simplify_eq; eexists _, _, _; eauto.
Qed.

(** The texts the comprehension keeps from a list of any JSON values. *)
Lemma valid_texts_kept (items : list json) :
  Forall (fun j => truthy j = true -> exists s, j = JStr s) items ->
  valid_texts items
  = Ok (omap (fun j => match j with
                       | JStr s => if Spec.blank s then None else Some s
                       | _ => None
                       end) items).
Proof.
  induction 1 as [|j items Hj _ IH]; [done |].
  unfold valid_texts; fold valid_texts. rewrite IH. simpl.
  destruct (truthy j) eqn:Ht.
  - destruct (Hj eq_refl) as [s ->]. unfold py_strip. run.
    rewrite strip_empty_iff_blank. by destruct (Spec.blank s).
  - simpl. destruct j as [| | | |s| |]; try done.
    assert (s = "") as -> by (destruct s; [done | discriminate Ht]). done.
Qed.

(** X23. Entries of [texts] that are not texts.  An entry that counts as
    false (null, false, 0, an empty list or object) is dropped like a
    blank text.  An entry that counts as true and is not a string makes
    the whole request fail with status 500 and the Python error of the
    missing [strip], before the encoder is called. *)
Theorem batch_embeddings_non_text_entries (items : list json) :
  (Forall (fun j => truthy j = true -> exists s, j = JStr s) items ->
   valid_texts items
   = Ok (omap (fun j => match j with
                        | JStr s => if Spec.blank s then None else Some s
                        | _ => None
                        end) items))
  /\ (forall U (req : request U) (w : world) enc dkv l1 x l2,
        items = (l1 ++ x :: l2)%list ->
        Forall (fun j => truthy j = true -> exists s, j = JStr s) l1 ->
        truthy x = true -> (forall s, x <> JStr s) ->
        embedding_model E = Some enc ->
        get_json req = Ok (JObj dkv) ->
        assoc "texts" dkv = Some (JArr items) ->
        create_batch_embeddings E req w
        = (Response (JObj [("success", JBool false);
                           ("error", JStr (attribute_error x "strip"))]) 500,
           (w ++ [LogError [JStr "Batch embedding creation failed: ";
                            JStr (attribute_error x "strip")]])%list)).
Proof.
  split; [apply valid_texts_kept |].
  intros U req w enc dkv l1 x l2 -> Hl1 Hx Hns Hmodel Hdata Htexts.
  assert (valid_texts (l1 ++ x :: l2) = Raise (attribute_error x "strip")) as Hv.
  { clear Htexts. induction Hl1 as [|j l1 Hj _ IH].
    - simpl. rewrite Hx. destruct x as [| | | |s| |]; try done.
      by destruct (Hns s).
    - change ((j :: l1) ++ x :: l2)%list with (j :: (l1 ++ x :: l2))%list.
      unfold valid_texts; fold valid_texts. rewrite IH.
      destruct (truthy j) eqn:Ht; [| done].
      destruct (Hj eq_refl) as [s ->]. done. }
  unfold create_batch_embeddings, create_batch_embeddings_try,
    create_batch_embeddings_except, emit.
  rewrite Hmodel, Hdata. step. rewrite (lacks_present dkv _ _ Htexts). step.
  assert (py_getitem (JObj dkv) "texts" = Ok (JArr (l1 ++ x :: l2))) as ->
      by (simpl; by rewrite Htexts).
  step.
  destruct (l1 ++ x :: l2)%list as [|j items] eqn:Hitems;
    [by destruct l1 |].
  rewrite Hv. by step.
Qed.

(** X24. A batch answer with status 200 comes from exactly one call of
    the encoder, on a non-empty list of texts none of which is blank;
    its [embeddings] are the rows the encoder returned, its [count] their
    number and its [dimensions] the length of the first row. *)
Theorem batch_embeddings_ok_inv {U} (req : request U) (w w' : world)
    (body : json) :
  create_batch_embeddings E req w = (Response body 200, w') ->
  exists enc valid rows,
    embedding_model E = Some enc
    /\ enc valid = Ok rows
    /\ valid <> []
    /\ Forall (fun s => Spec.blank s = false) valid
    /\ w' = (w ++ [LogInfo [JStr "Creating embeddings for ";
                            JInt (Z.of_nat (length valid)); JStr " texts"];
                   Encode valid;
                   LogInfo [JStr "Generated ";
                            JInt (Z.of_nat (length rows));
                            JStr " embeddings"]])%list
    /\ Spec.at_path body ["embeddings"] = Some (JArr (json_of_vector <$> rows))
    /\ Spec.at_path body ["count"] = Some (JInt (Z.of_nat (length rows)))
    /\ Spec.at_path body ["dimensions"]
       = Some (JInt (Z.of_nat (length (default [] (head rows))))).
Proof.
  assert (forall items valid,
             valid_texts items = Ok valid ->
             Forall (fun s => Spec.blank s = false) valid) as Hclean.
  { induction items as [|j items IH]; intros valid.
    - intros [= <-]. constructor.
    - unfold valid_texts; fold valid_texts.
      destruct (valid_texts items) as [tail|]; [| by repeat case_match].
      specialize (IH tail eq_refl).
      destruct (truthy j); [| by intros [= <-]].
      destruct j as [| | | |s| |]; try done. unfold py_strip. run.
      rewrite strip_empty_iff_blank.
      destruct (Spec.blank s) eqn:Hs; intros [= <-]; [done |].
      by constructor. }
  unfold create_batch_embeddings, create_batch_embeddings_try,
    create_batch_embeddings_except, emit.
  destruct (embedding_model E) as [enc|] eqn:Hmodel; [| done].
  step.
  destruct (get_json req) as [data|]; [| done]. step.
  destruct (lacks data "texts") as [[|]|]; try done. step.
  destruct (py_getitem data "texts") as [texts|]; [| done]. step.
  destruct texts as [| | | | |[|j items]|]; try done.
  destruct (valid_texts (j :: items)) as [valid|] eqn:Hvalid; [| done]. step.
  destruct valid as [|t valid]; [done |].
  unfold encode, modify. step. rewrite Hmodel. step.
  destruct (enc (t :: valid)) as [rows|] eqn:Henc; [| done].
  intros [= <- <-].
  exists enc, (t :: valid), rows.
  split; [done |]. split; [done |]. split; [done |].
  split; [by eapply Hclean |].
  split; [by rewrite length_fmap, <- !app_assoc |].
  split; [done |]. split; [simpl; by rewrite length_fmap |].
  simpl. by destruct rows.
Qed.

End EmbeddingPaths.

(** ** The further properties on the sample inputs *)

Lemma transcribe_no_exception_escapes_witness :
  exists body status w',
    Whisper.transcribe whisper_env_online request_url empty_disk
    = (Response body status, w')
    /\ (status = 200 \/ status = 400 \/ status = 500)%Z.
Proof.
  exact (transcribe_no_exception_escapes whisper_env_online request_url
           empty_disk (fun _ => eq_refl)).
Defined.

Lemma transcribe_ok_leaves_no_file_witness :
  exists body w',
    Whisper.transcribe whisper_env_loaded request_upload empty_disk
    = (Response body 200, w')
    /\ Whisper.fs w' = Whisper.fs empty_disk.
Proof.
  destruct (Whisper.transcribe whisper_env_loaded request_upload empty_disk)
    as [out w'] eqn:Hrun.
  assert (exists body, out = Response body 200) as [body ->].
  { vm_compute in Hrun. injection Hrun as <- _. by eexists. }
  exists body, w'. split; [done |].
  exact (proj1 (transcribe_ok_leaves_no_file whisper_env_loaded request_upload
                  empty_disk w' body Hrun)).
Defined.



Lemma transcribe_save_failure_witness :
  exists w',
    Whisper.transcribe whisper_env_loaded request_failing_upload empty_disk
    = (Response (JObj [("success", JBool false);
                       ("error", JStr "[Errno 28] No space left on device")])
         500, w')
    /\ Whisper.fs w' !! 0%N = Some "".
Proof.
  eexists. split.
  - exact (transcribe_save_failure whisper_env_loaded request_failing_upload
             empty_disk failing_upload _ {[ "audio_file" := failing_upload ]}
             eq_refl eq_refl eq_refl).
  - reflexivity.
Defined.

Lemma transcribe_interrupted_download_witness :
  exists w',
    Whisper.transcribe whisper_env_cut request_url empty_disk
    = (Response (JObj [("success", JBool false);
                       ("error", JStr "Connection broken: IncompleteRead")])
         500, w')
    /\ Whisper.fs w' !! 0%N = Some "ID3audio".
Proof.
  eexists. split.
  - exact (transcribe_interrupted_download whisper_env_cut request_url empty_disk
             [("audio_url", JStr "http://host/a.mp3")]
             (JStr "http://host/a.mp3") response_cut _ ∅
             eq_refl eq_refl eq_refl eq_refl eq_refl eq_refl eq_refl eq_refl).
  - reflexivity.
Defined.

Lemma transcribe_model_missing_witness :
  exists w',
    Whisper.transcribe whisper_env_unloaded request_upload empty_disk
    = (Response (JObj [("error", JStr "Whisper model not loaded")]) 500, w')
    /\ Whisper.fs w' !! 0%N = Some "RIFF".
Proof.
  eexists. split.
  - exact (proj1 (transcribe_model_missing whisper_env_unloaded request_upload
                    empty_disk _ eq_refl eq_refl)).
  - reflexivity.
Defined.

Lemma chat_completions_not_running_witness :
  exists w',
    Chat.chat_completions chat_env_down chat_request [] =
    (Response
       (JObj [("error", JStr "Ollama is not running. Please start Ollama first.")])
       500, w').
Proof.
  eexists.
  apply (chat_completions_not_running chat_env_down chat_request []). done.
Defined.

Lemma chat_completions_rejects_empty_witness :
  Chat.chat_completions chat_env chat_request_no_messages []
  = (Response (JObj [("error", JStr "No messages provided")]) 400,
     [Chat.GetTags]).
Proof.
  refine (proj2 (chat_completions_rejects_empty chat_env chat_request_no_messages
                   [] (JObj [("messages", JArr [])]) eq_refl eq_refl)
            [("messages", JArr [])] eq_refl _ eq_refl).
  done.
Defined.

Lemma chat_completions_runtime_failure_witness :
  exists w',
    Chat.chat_completions chat_env_busy chat_request [] =
    (Response (JObj [("error", JStr "Ollama API error: model is loading")]) 500, w').
Proof.
  eexists.
  refine (chat_completions_runtime_failure chat_env_busy chat_request []
            _ _ _ _ eq_refl eq_refl eq_refl eq_refl eq_refl eq_refl eq_refl _).
  done.
Defined.

Lemma chat_completions_malformed_message_witness :
  exists w',
    Chat.chat_completions chat_env chat_request_bad_message [] =
    (Response (JObj [("error", JStr "'str' object has no attribute 'get'")]) 500, w').
Proof.
  eexists.
  refine (chat_completions_malformed_message chat_env chat_request_bad_message []
            [("messages", JArr [message_user; JStr "hi"])]
            [message_user] [] (JStr "hi") _ eq_refl eq_refl eq_refl eq_refl _).
  done.
Defined.

Lemma ensure_model_available_pulls_when_absent_witness :
  exists s',
    ChatAdmin.ensure_model_available admin_env_ready first_request = (Ok true, s')
    /\ forall payload, ChatAdmin.PostPull payload ∉ ChatAdmin.events s'.
Proof.
  destruct (ensure_model_available_pulls_when_absent admin_env_ready first_request
              tags_reply
              [JStr "llama2:7b"; JStr "mistral:7b"]
              eq_refl eq_refl eq_refl eq_refl)
    as (b & new & s' & Hrun & Hev & Hpull & _ & ->).
  exists s'. split; [exact Hrun |].
  intros payload Hin. rewrite Hev in Hin. simpl in Hin.
  assert (exists p, ChatAdmin.PostPull p ∈ new) as Hex by eauto.
  apply Hpull in Hex. discriminate Hex.
Defined.

Lemma setup_ollama_not_started_witness :
  exists s',
    ChatAdmin.setup_ollama admin_env_down first_request
    = (Response (JObj [("error", JStr "Failed to start Ollama")]) 500, s').
Proof.
  destruct (setup_ollama_not_started admin_env_down first_request)
    as (new & s' & Hrun & _); [by left |].
  by exists s'.
Defined.


Lemma create_embedding_contract_witness :
  exists w',
    Embedding.create_embedding embed_env embed_request []
    = (Response (JObj [("success", JBool true);
                       ("embedding", JArr [JFloat 1; JFloat 3]);
                       ("dimensions", JInt 2);
                       ("model", JStr "all-MiniLM-L6-v2")]) 200, w').
Proof.
  eexists.
  exact (proj2 (proj1 (proj2 (create_embedding_contract embed_env embed_request
                                []  toy_encoder eq_refl))
                  [("text", JStr "hello")] "hello" eq_refl eq_refl)
           eq_refl [1%float; 3%float] [] eq_refl).
Defined.

Lemma batch_embeddings_non_text_entries_witness :
  exists w',
    Embedding.create_batch_embeddings embed_env batch_request_mixed []
    = (Response (JObj [("success", JBool false);
                       ("error", JStr "'int' object has no attribute 'strip'")])
         500, w').
Proof.
  eexists.
  refine (proj2 (batch_embeddings_non_text_entries embed_env
                   [JStr "a"; JNull; JInt 5])
            unit batch_request_mixed [] toy_encoder
            [("texts", JArr [JStr "a"; JNull; JInt 5])]
            [JStr "a"; JNull] (JInt 5) [] eq_refl _ eq_refl _ eq_refl eq_refl
            eq_refl).
  - repeat constructor; [by eexists | done].
  - done.
Defined.

Lemma batch_embeddings_ok_inv_witness :
  exists body w' (rows : list Embedding.vector),
    Embedding.create_batch_embeddings embed_env batch_request []
    = (Response body 200, w')
    /\ Spec.at_path body ["count"] = Some (JInt (Z.of_nat (length rows))).
Proof.
  destruct (Embedding.create_batch_embeddings embed_env batch_request [])
    as [out w'] eqn:Hrun.
  assert (exists body, out = Response body 200) as [body ->].
  { vm_compute in Hrun. injection Hrun as <- _. by eexists. }
  destruct (batch_embeddings_ok_inv embed_env batch_request [] w' body Hrun)
    as (enc & valid & rows & _ & _ & _ & _ & _ & _ & Hcount & _).
  by exists body, w', rows.
Defined.
